(** * fast-trips: the Python extension module [_fasttrips] (src/fasttrips.cpp)

    The module exposes three operations on one process-wide engine object
    ([fasttrips::PathFinder pathfinder]):

      - [initialize_supply]  converts six numpy tables and installs the network;
      - [set_bump_wait]      converts two numpy tables and installs the capacity overlay;
      - [find_path]          runs one query and marshals the path into two arrays.

    The development embeds the three functions as state-passing programs over
    the engine, with the two ways a call can end early written out: the
    [return NULL] of a failed argument parse or array conversion, and the
    process abort of a failed [assert], in a build where assertions are
    live. The engine class of pathfinder.h and the CPython / numpy entry
    points are interfaces of the embedding. *)

From Stdlib Require Import ZArith Floats.PrimFloat.
From stdpp Require Import base gmap list list_numbers strings.

Local Open Scope Z_scope.

(* ===================================================================== *)
(** ** C integers *)
(* ===================================================================== *)

(** [int] is 32 bits wide; [npy_intp] (the type of array dimensions) and
    [size_t] are 64 bits wide. The conversion [int n = PyArray_DIMS(pyo)[0]]
    narrows: it keeps the low 32 bits, read as a signed number. *)
Definition INT_MIN : Z := - 2 ^ 31.
Definition INT_MAX : Z := 2 ^ 31 - 1.

Definition to_int (z : Z) : Z := (z + 2 ^ 31) `mod` 2 ^ 32 - 2 ^ 31.

Definition in_int_range (z : Z) : Prop := INT_MIN ≤ z ≤ INT_MAX.

(* ===================================================================== *)
(** ** numpy arrays and the Python runtime *)
(* ===================================================================== *)

Inductive npy_type : Type := NPY_INT32 | NPY_DOUBLE.

(** The C type behind the cast of [PyArray_DATA]: [int*] or [double*]. *)
Definition npy_elem (t : npy_type) : Type :=
  match t with NPY_INT32 => Z | NPY_DOUBLE => float end.

(** A C-contiguous array: its shape ([npy_intp] entries) and its data
    pointer, read as the element found at each offset. *)
Record PyArrayObject (A : Type) : Type := mkArray {
  PyArray_DIMS : list Z;
  PyArray_DATA : Z → A
}.
Arguments mkArray {A} _ _.
Arguments PyArray_DIMS {A} _.
Arguments PyArray_DATA {A} _ _.

(** [PyArray_DIMS(pyo)[k]]. *)
Definition dim {A} (pyo : PyArrayObject A) (k : nat) : Z :=
  nth k (PyArray_DIMS pyo) 0.

(** The entry points of CPython and numpy that the module calls. A parse or
    a conversion that fails yields [None] (the C functions return 0 / NULL
    with the error indicator set). numpy promises that a converted array has
    between [min_depth] and [max_depth] dimensions. *)
Class PyRuntime : Type := {
  PyObject : Type;
  PyArg_ParseTuple_siOOOOOO :
    PyObject → option (string * Z * PyObject * PyObject * PyObject
                       * PyObject * PyObject * PyObject);
  PyArg_ParseTuple_OO : PyObject → option (PyObject * PyObject);
  PyArg_ParseTuple_iiiiiidi :
    PyObject → option (Z * Z * Z * Z * Z * Z * float * Z);
  PyArray_ContiguousFromObject :
    PyObject → ∀ t : npy_type, nat → nat → option (PyArrayObject (npy_elem t));
  PyArray_ContiguousFromObject_depth :
    ∀ op t min_depth max_depth pyo,
      PyArray_ContiguousFromObject op t min_depth max_depth = Some pyo →
      (min_depth ≤ length (PyArray_DIMS pyo) ≤ max_depth)%nat
}.

(** [PyArray_SimpleNew(nd, dims, type)]: a fresh array of the given shape
    whose contents are whatever the allocator hands out. *)
Definition PyArray_SimpleNew {A} (dims : list Z) (uninitialized : Z → A)
  : PyArrayObject A :=
  mkArray dims uninitialized.

(** [*(T* )PyArray_GETPTR2(arr, i, j) = v] on a C-contiguous 2-d array: the
    element at offset [i * dims[1] + j] is overwritten. *)
Definition PyArray_SETPTR2 {A} (arr : PyArrayObject A) (i j : Z) (v : A)
  : PyArrayObject A :=
  mkArray (PyArray_DIMS arr)
          (λ k, if bool_decide (k = i * dim arr 1 + j) then v
                else PyArray_DATA arr k).

(** What Python reads from a 2-d array: its rows. *)
Definition array_rows {A} (arr : PyArrayObject A) : list (list A) :=
  (λ i, (λ j, PyArray_DATA arr (i * dim arr 1 + j)) <$> seqZ 0 (dim arr 1))
    <$> seqZ 0 (dim arr 0).

(** Uninitialised memory handed out to the two result arrays of a query. *)
Record fresh_memory : Type := {
  fresh_int32 : Z → Z;
  fresh_double : Z → float
}.

(** What a module function hands back to Python on a normal return. *)
Inductive PyReturn : Type :=
| Py_None
| Py_Tuple_OO (ret_int : PyArrayObject Z) (ret_double : PyArrayObject float).

(* ===================================================================== *)
(** ** The engine interface (pathfinder.h) *)
(* ===================================================================== *)

(** The query record filled by [find_path] (lines 119-128). *)
Record PathSpecification : Type := {
  passenger_id_ : Z;
  path_id_ : Z;
  hyperpath_ : bool;
  origin_taz_id_ : Z;
  destination_taz_id_ : Z;
  outbound_ : bool;
  preferred_time_ : float;
  trace_ : bool
}.

(** The per-stop record read by [find_path] (lines 148-157): five [int]
    fields and five [double] fields, the stop id being the map key. *)
Record StopState : Type := {
  label_ : float;
  deparr_time_ : float;
  deparr_mode_ : Z;
  stop_succpred_ : Z;
  seq_ : Z;
  seq_succpred_ : Z;
  link_time_ : float;
  cost_ : float;
  arrdep_time_ : float
}.

(** The three methods the module calls on the global [pathfinder], in the
    argument order of the call sites, the engine state threaded last.
    [StopState_new] is the value of [StopState()], which [std::map]'s
    [operator[]] stores for a missing key. *)
Class PathFinderClass (PathFinder : Type) : Type := {
  initializeSupply :
    string → Z →
    (Z → Z) → (Z → float) → Z →
    (Z → Z) → (Z → float) → Z →
    (Z → Z) → (Z → float) → Z →
    PathFinder → PathFinder;
  setBumpWait : (Z → Z) → (Z → float) → Z → PathFinder → PathFinder;
  findPath :
    PathSpecification → gmap Z StopState → list Z →
    PathFinder → gmap Z StopState * list Z * PathFinder;
  StopState_new : StopState
}.

(* ===================================================================== *)
(** ** Control flow of a module function *)
(* ===================================================================== *)

(** A call either runs to its end with a value, returns NULL to the
    interpreter (a Python exception is pending), or dies in a live
    [assert]. *)
Inductive outcome (A : Type) : Type :=
| Value (a : A)
| ReturnNULL
| Abort.
Arguments Value {A} _.
Arguments ReturnNULL {A}.
Arguments Abort {A}.

(** State passing over the global engine object. *)
Definition M (S A : Type) : Type := S → outcome A * S.

Global Instance M_ret {S} : MRet (M S) := λ A a s, (Value a, s).
Global Instance M_bind {S} : MBind (M S) := λ A B f m s,
  match m s with
  | (Value a, s') => f a s'
  | (ReturnNULL, s') => (ReturnNULL, s')
  | (Abort, s') => (Abort, s')
  end.

Definition return_NULL {S A} : M S A := λ s, (ReturnNULL, s).

(** How the file is compiled. [assert] comes from <assert.h> (through
    Python.h), and the file neither defines nor undefines NDEBUG: the
    compiler command line decides whether its assertions are live.
    Extension modules are by default built with NDEBUG defined. *)
Class BuildFlags : Type := { NDEBUG : bool }.

(** [assert(c)]: with NDEBUG the macro expands to nothing; without it,
    nothing when [c] holds and [abort()] otherwise. *)
Definition assert {build : BuildFlags} {S} (c : bool) : M S unit :=
  λ s, if NDEBUG then (Value tt, s)
       else if c then (Value tt, s) else (Abort, s).

(** [p = f(...); if (p == NULL) return NULL;] *)
Definition or_return_NULL {S A} (p : option A) : M S A :=
  λ s, match p with Some a => (Value a, s) | None => (ReturnNULL, s) end.

(** A method call on the global object. *)
Definition on_pathfinder {S} (method : S → S) : M S unit :=
  λ s, (Value tt, method s).

Definition is_error {A} (o : outcome A) : bool :=
  match o with Value _ => false | ReturnNULL | Abort => true end.

(* ===================================================================== *)
(** ** The module functions *)
(* ===================================================================== *)

Section Module_functions.
Context {build : BuildFlags} {rt : PyRuntime}
        {PathFinder : Type} {engine : PathFinderClass PathFinder}.

(** Lines 15-86. *)
Definition _fasttrips_initialize_supply (args : PyObject)
  : M PathFinder PyReturn :=
  match PyArg_ParseTuple_siOOOOOO args with
  | None => return_NULL
  | Some (output_dir, proc_num, input1, input2, input3, input4, input5, input6) =>
    (* access_links index: TAZ id, stop id *)
    pyo ← or_return_NULL (PyArray_ContiguousFromObject input1 NPY_INT32 2 2);
    let acc_indexes := PyArray_DATA pyo in
    let num_indexes := to_int (dim pyo 0) in
    assert (bool_decide (2 = dim pyo 1));;
    (* access_links cost: time, access cost, egress cost *)
    pyo ← or_return_NULL (PyArray_ContiguousFromObject input2 NPY_DOUBLE 2 2);
    let costs := PyArray_DATA pyo in
    let num_costs := to_int (dim pyo 0) in
    assert (bool_decide (3 = dim pyo 1));;
    (* these better be the same length *)
    assert (bool_decide (num_indexes = num_costs));;
    (* trip stop times index: trip id, sequence, stop id *)
    pyo ← or_return_NULL (PyArray_ContiguousFromObject input3 NPY_INT32 2 2);
    let stop_indexes := PyArray_DATA pyo in
    let num_stop_ind := to_int (dim pyo 0) in
    assert (bool_decide (3 = dim pyo 1));;
    (* trip stop times data: arrival time, departure time *)
    pyo ← or_return_NULL (PyArray_ContiguousFromObject input4 NPY_DOUBLE 2 2);
    let stop_times := PyArray_DATA pyo in
    let num_stop_times := to_int (dim pyo 0) in
    assert (bool_decide (2 = dim pyo 1));;
    (* these better be the same length *)
    assert (bool_decide (num_stop_ind = num_stop_times));;
    (* stop transfers index: from stop id, to stop id *)
    pyo ← or_return_NULL (PyArray_ContiguousFromObject input5 NPY_INT32 2 2);
    let xfer_indexes := PyArray_DATA pyo in
    let num_xfer_ind := to_int (dim pyo 0) in
    assert (bool_decide (2 = dim pyo 1));;
    (* stop transfers data: time, cost *)
    pyo ← or_return_NULL (PyArray_ContiguousFromObject input6 NPY_DOUBLE 2 2);
    let xfer_data := PyArray_DATA pyo in
    let num_xfer_data := to_int (dim pyo 0) in
    assert (bool_decide (2 = dim pyo 1));;
    (* these better be the same length *)
    assert (bool_decide (num_xfer_ind = num_xfer_data));;
    (* keep them *)
    on_pathfinder (initializeSupply output_dir proc_num
                     acc_indexes costs num_indexes
                     stop_indexes stop_times num_stop_ind
                     xfer_indexes xfer_data num_xfer_ind);;
    mret Py_None
  end.

(** Lines 88-113. *)
Definition _fasttrips_set_bump_wait (args : PyObject)
  : M PathFinder PyReturn :=
  match PyArg_ParseTuple_OO args with
  | None => return_NULL
  | Some (input1, input2) =>
    (* bump wait index: trip id, stop sequence, stop id *)
    pyo ← or_return_NULL (PyArray_ContiguousFromObject input1 NPY_INT32 2 2);
    let bw_index := PyArray_DATA pyo in
    let num_bw := to_int (dim pyo 0) in
    assert (bool_decide (3 = dim pyo 1));;
    (* bump wait data: arrival time *)
    pyo ← or_return_NULL (PyArray_ContiguousFromObject input2 NPY_DOUBLE 1 1);
    let bw_times := PyArray_DATA pyo in
    let num_times := to_int (dim pyo 0) in
    assert (bool_decide (num_times = num_bw));;
    on_pathfinder (setBumpWait bw_index bw_times num_bw);;
    mret Py_None
  end.

(** [path_states[stop_id]]: [std::map::operator[]] returns the mapped
    record and, when the key is missing, first stores [StopState()]. *)
Definition map_subscript (path_states : gmap Z StopState) (stop_id : Z)
  : StopState * gmap Z StopState :=
  match path_states !! stop_id with
  | Some s => (s, path_states)
  | None => (StopState_new, <[stop_id := StopState_new]> path_states)
  end.

(** The body of the marshalling loop (lines 146-157) at index [ind]. *)
Definition marshal_row (path_stops : list Z)
    (st : gmap Z StopState * PyArrayObject Z * PyArrayObject float)
    (ind : nat)
  : gmap Z StopState * PyArrayObject Z * PyArrayObject float :=
  let '(path_states, ret_int, ret_double) := st in
  let i := Z.of_nat ind in
  let stop_id := nth ind path_stops 0 in
  let ret_int := PyArray_SETPTR2 ret_int i 0 stop_id in
  let '(s, path_states) := map_subscript path_states stop_id in
  let ret_int := PyArray_SETPTR2 ret_int i 1 (deparr_mode_ s) in
  let '(s, path_states) := map_subscript path_states stop_id in
  let ret_int := PyArray_SETPTR2 ret_int i 2 (stop_succpred_ s) in
  let '(s, path_states) := map_subscript path_states stop_id in
  let ret_int := PyArray_SETPTR2 ret_int i 3 (seq_ s) in
  let '(s, path_states) := map_subscript path_states stop_id in
  let ret_int := PyArray_SETPTR2 ret_int i 4 (seq_succpred_ s) in
  let '(s, path_states) := map_subscript path_states stop_id in
  let ret_double := PyArray_SETPTR2 ret_double i 0 (label_ s) in
  let '(s, path_states) := map_subscript path_states stop_id in
  let ret_double := PyArray_SETPTR2 ret_double i 1 (deparr_time_ s) in
  let '(s, path_states) := map_subscript path_states stop_id in
  let ret_double := PyArray_SETPTR2 ret_double i 2 (link_time_ s) in
  let '(s, path_states) := map_subscript path_states stop_id in
  let ret_double := PyArray_SETPTR2 ret_double i 3 (cost_ s) in
  let '(s, path_states) := map_subscript path_states stop_id in
  let ret_double := PyArray_SETPTR2 ret_double i 4 (arrdep_time_ s) in
  (path_states, ret_int, ret_double).

(** Lines 134-158: allocate the two arrays and run the loop
    [for (ind = 0; ind < dims_int[0]; ++ind)]. The counter is an [int] in
    the source; here it ranges over the whole stop list, which is the same
    as long as the path has no more than [INT_MAX] stops. *)
Definition marshal_path (heap : fresh_memory)
    (path_states : gmap Z StopState) (path_stops : list Z)
  : gmap Z StopState * PyArrayObject Z * PyArrayObject float :=
  let dims_int := [Z.of_nat (length path_stops); 5] in
  let ret_int := PyArray_SimpleNew dims_int (fresh_int32 heap) in
  let dims_double := [Z.of_nat (length path_stops); 5] in
  let ret_double := PyArray_SimpleNew dims_double (fresh_double heap) in
  foldl (marshal_row path_stops) (path_states, ret_int, ret_double)
        (seq 0 (Z.to_nat (nth 0 dims_int 0))).

(** Lines 115-162. *)
Definition _fasttrips_find_path (heap : fresh_memory) (args : PyObject)
  : M PathFinder PyReturn :=
  match PyArg_ParseTuple_iiiiiidi args with
  | None => return_NULL
  | Some (passenger_id, path_id, hyperpath_i, origin_taz_id,
          destination_taz_id, outbound_i, preferred_time, trace_i) =>
    let path_spec := {|
      passenger_id_ := passenger_id;
      path_id_ := path_id;
      hyperpath_ := negb (bool_decide (hyperpath_i = 0));
      origin_taz_id_ := origin_taz_id;
      destination_taz_id_ := destination_taz_id;
      outbound_ := negb (bool_decide (outbound_i = 0));
      preferred_time_ := preferred_time;
      trace_ := negb (bool_decide (trace_i = 0))
    |} in
    λ pathfinder,
      let '(path_states, path_stops, pathfinder) :=
        findPath path_spec ∅ [] pathfinder in
      let '(_, ret_int, ret_double) :=
        marshal_path heap path_states path_stops in
      (Value (Py_Tuple_OO ret_int ret_double), pathfinder)
  end.

End Module_functions.

(** What Python can observe of an outcome: the shapes and the rows of the
    two returned arrays (memory outside the arrays is not part of it). *)
Definition python_view (o : outcome PyReturn)
  : outcome (option (list Z * list (list Z) * (list Z * list (list float)))) :=
  match o with
  | Value Py_None => Value None
  | Value (Py_Tuple_OO ret_int ret_double) =>
      Value (Some (PyArray_DIMS ret_int, array_rows ret_int,
                   (PyArray_DIMS ret_double, array_rows ret_double)))
  | ReturnNULL => ReturnNULL
  | Abort => Abort
  end.

(** The integer and the numeric row that [find_path] writes for a stop. *)
Definition int_row (stop_id : Z) (s : StopState) : list Z :=
  [stop_id; deparr_mode_ s; stop_succpred_ s; seq_ s; seq_succpred_ s].

Definition double_row (s : StopState) : list float :=
  [label_ s; deparr_time_ s; link_time_ s; cost_ s; arrdep_time_ s].

(* ===================================================================== *)
(** ** The engine behind the interface *)
(* ===================================================================== *)

(** pathfinder.h and pathfinder.cpp are not part of the sources; the engine
    below follows the design document instead. Results that rest on it hold
    for the engine as designed; results stated for any [PathFinderClass]
    hold for the module whatever the engine does. *)
Module Engine.

(** Modelled from the spec: the NetworkSupply of section 3 (class
    PathFinder's network tables are missing from the sources). Access
    links map (zone id, stop id) to (walk time, access cost, egress cost),
    stop times map (trip id, sequence, stop id) to (arrival, departure),
    transfers map (from stop, to stop) to (walk time, cost). *)
Record NetworkSupply : Type := {
  access_links : list (Z * Z * (float * float * float));
  stop_times : list (Z * Z * Z * (float * float));
  transfers : list (Z * Z * (float * float))
}.

(** Modelled from the spec: the state of the missing class PathFinder, one
    instance per worker: the output directory and worker identifier given
    to build supply, the NetworkSupply, the CapacityOverlay (a lookup for
    (trip, sequence, stop) gives no constraint or a threshold arrival time)
    and the names of the diagnostic trace files emitted so far (output
    directory, worker identifier, traveler id, path id). *)
Record PathFinder : Type := mkPathFinder {
  output_dir_ : string;
  process_num_ : Z;
  supply_ : NetworkSupply;
  bump_wait_ : gmap (Z * Z * Z) float;
  trace_files_ : list (string * Z * Z * Z)
}.

(** Modelled from the spec: the PathSpecification of section 3 without its
    trace flag, which is diagnostic verbosity and not behaviour-affecting
    (the search of the missing PathFinder::findPath reads these fields). *)
Record Query : Type := {
  traveler_id : Z;
  query_path_id : Z;
  origin_zone : Z;
  destination_zone : Z;
  direction : bool;
  preferred_time : float
}.

(** Modelled from the spec: what the missing PathFinder::findPath reads of
    a PathSpecification: every field but the mode flag, which selects the
    strategy, and the trace flag. *)
Definition query_of (path_spec : PathSpecification) : Query := {|
  traveler_id := passenger_id_ path_spec;
  query_path_id := path_id_ path_spec;
  origin_zone := origin_taz_id_ path_spec;
  destination_zone := destination_taz_id_ path_spec;
  direction := outbound_ path_spec;
  preferred_time := preferred_time_ path_spec
|}.

(** Modelled from the spec: the rows of a table, for the missing
    PathFinder methods that take a data pointer and a row count [num]
    (no row when [num] is not positive). *)
Definition table_rows {A} (row : Z → A) (num : Z) : list A :=
  row <$> seqZ 0 num.

(** Modelled from the spec: the entries of a bump table, for the missing
    PathFinder::setBumpWait: row [i] of the index table (trip, sequence,
    stop) with the threshold time at position [i]. *)
Definition bump_entries (bw_index : Z → Z) (bw_times : Z → float) (num_bw : Z)
  : list (Z * Z * Z * float) :=
  table_rows (λ i, (bw_index (3 * i), bw_index (3 * i + 1),
                    bw_index (3 * i + 2), bw_times i)) num_bw.

(** Modelled from the spec: PathFinder::initializeSupply (missing from the
    sources), section 4.1 and 6: keeps the output directory and the worker
    identifier and builds the network from the three index/data table
    pairs; the capacity overlay is not part of the network. *)
Definition initializeSupply_model (output_dir : string) (proc_num : Z)
    (acc_indexes : Z → Z) (costs : Z → float) (num_indexes : Z)
    (stop_indexes : Z → Z) (times : Z → float) (num_stop_ind : Z)
    (xfer_indexes : Z → Z) (xfer_data : Z → float) (num_xfer_ind : Z)
    (pf : PathFinder) : PathFinder :=
  {| output_dir_ := output_dir;
     process_num_ := proc_num;
     supply_ := {|
       access_links :=
         table_rows (λ i, (acc_indexes (2 * i), acc_indexes (2 * i + 1),
                           (costs (3 * i), costs (3 * i + 1), costs (3 * i + 2))))
                    num_indexes;
       stop_times :=
         table_rows (λ i, (stop_indexes (3 * i), stop_indexes (3 * i + 1),
                           stop_indexes (3 * i + 2),
                           (times (2 * i), times (2 * i + 1))))
                    num_stop_ind;
       transfers :=
         table_rows (λ i, (xfer_indexes (2 * i), xfer_indexes (2 * i + 1),
                           (xfer_data (2 * i), xfer_data (2 * i + 1))))
                    num_xfer_ind |};
     bump_wait_ := bump_wait_ pf;
     trace_files_ := trace_files_ pf |}.

(** Modelled from the spec: PathFinder::setBumpWait (missing from the
    sources), section 4.2 and 6: replaces the overlay wholesale by the
    given entries, row after row, and never mutates the NetworkSupply. *)
Definition setBumpWait_model (bw_index : Z → Z) (bw_times : Z → float)
    (num_bw : Z) (pf : PathFinder) : PathFinder :=
  {| output_dir_ := output_dir_ pf;
     process_num_ := process_num_ pf;
     supply_ := supply_ pf;
     bump_wait_ :=
       foldl (λ (m : gmap (Z * Z * Z) float) e, <[e.1 := e.2]> m) ∅
             (bump_entries bw_index bw_times num_bw);
     trace_files_ := trace_files_ pf |}.

Section Search.
(** Modelled from the spec: the two search strategies of the missing
    PathFinder::findPath, sections 4.3 and 4.4. The design leaves the
    generalized cost and the direction convention open, so both are taken
    as given: each maps the network, the overlay and the query to the
    ordered StopState records of the path, in travel order, the empty
    sequence when no path exists. The hyperpath strategy includes the
    sampler, seeded from the query's traveler id and path id. *)
Variable deterministic_search :
  NetworkSupply → gmap (Z * Z * Z) float → Query → list (Z * StopState).
Variable hyperpath_search :
  NetworkSupply → gmap (Z * Z * Z) float → Query → list (Z * StopState).

(** Modelled from the spec: the path of a query, for the missing
    PathFinder::findPath: the strategy selected by the mode flag, run
    on the process-wide NetworkSupply and CapacityOverlay. *)
Definition search_path (path_spec : PathSpecification) (pf : PathFinder)
  : list (Z * StopState) :=
  if hyperpath_ path_spec
  then hyperpath_search (supply_ pf) (bump_wait_ pf) (query_of path_spec)
  else deterministic_search (supply_ pf) (bump_wait_ pf) (query_of path_spec).

(** Modelled from the spec: PathFinder::findPath (missing from the
    sources), sections 2, 4.3, 4.4 and 6: searches the path on the
    process-wide NetworkSupply and CapacityOverlay,
    which it only reads; records one StopState per stop of the path,
    keyed by stop id, and the stop ids in travel order; when the trace
    flag is set, emits a trace file named by output directory, worker
    identifier and traveler/path id. *)
Definition findPath_model (path_spec : PathSpecification)
    (path_states : gmap Z StopState) (path_stops : list Z)
    (pf : PathFinder) : gmap Z StopState * list Z * PathFinder :=
  let path := search_path path_spec pf in
  (foldl (λ (m : gmap Z StopState) e, <[e.1 := e.2]> m) path_states path,
   path_stops ++ path.*1,
   if trace_ path_spec
   then {| output_dir_ := output_dir_ pf;
           process_num_ := process_num_ pf;
           supply_ := supply_ pf;
           bump_wait_ := bump_wait_ pf;
           trace_files_ :=
             (output_dir_ pf, process_num_ pf,
              passenger_id_ path_spec, path_id_ path_spec)
               :: trace_files_ pf |}
   else pf).

(** Modelled from the spec: the missing class PathFinder as an instance
    of the interface the module calls. The spec has no default StopState;
    [StopState()] of a plain C++ struct is all zeros. *)
Definition spec_engine : PathFinderClass PathFinder := {|
  initializeSupply := initializeSupply_model;
  setBumpWait := setBumpWait_model;
  findPath := findPath_model;
  StopState_new := {|
    label_ := 0%float; deparr_time_ := 0%float; deparr_mode_ := 0;
    stop_succpred_ := 0; seq_ := 0; seq_succpred_ := 0;
    link_time_ := 0%float; cost_ := 0%float; arrdep_time_ := 0%float |}
|}.
End Search.

End Engine.

(* ===================================================================== *)
(** ** A small runtime to run the module on concrete calls *)
(* ===================================================================== *)

Module Sample.

(** Python values: enough of them to build the argument tuples of the
    three functions. *)
Local Unset Elimination Schemes.
Inductive py_value : Type :=
| PyNone_v
| PyInt_v (z : Z)
| PyFloat_v (x : float)
| PyStr_v (s : string)
| PyNdarray_v (t : npy_type) (a : PyArrayObject (npy_elem t))
| PyTuple_v (items : list py_value).
Local Set Elimination Schemes.

Definition fits_int (z : Z) : bool :=
  bool_decide (INT_MIN ≤ z) && bool_decide (z ≤ INT_MAX).

Definition parse_siOOOOOO (args : py_value)
  : option (string * Z * py_value * py_value * py_value
            * py_value * py_value * py_value) :=
  match args with
  | PyTuple_v [PyStr_v s; PyInt_v i; o1; o2; o3; o4; o5; o6] =>
      if fits_int i then Some (s, i, o1, o2, o3, o4, o5, o6) else None
  | _ => None
  end.

Definition parse_OO (args : py_value) : option (py_value * py_value) :=
  match args with
  | PyTuple_v [o1; o2] => Some (o1, o2)
  | _ => None
  end.

Definition parse_iiiiiidi (args : py_value)
  : option (Z * Z * Z * Z * Z * Z * float * Z) :=
  match args with
  | PyTuple_v [PyInt_v a; PyInt_v b; PyInt_v c; PyInt_v d; PyInt_v e;
               PyInt_v f; PyFloat_v x; PyInt_v g] =>
      if fits_int a && fits_int b && fits_int c && fits_int d
         && fits_int e && fits_int f && fits_int g
      then Some (a, b, c, d, e, f, x, g) else None
  | _ => None
  end.

Definition depth_ok {A} (min_depth max_depth : nat) (a : PyArrayObject A)
  : option (PyArrayObject A) :=
  if bool_decide (min_depth ≤ length (PyArray_DIMS a) ≤ max_depth)%nat
  then Some a else None.

(** An array converts when it already has the requested element type and
    a number of dimensions within the bounds. *)
Definition contiguous_from_object (op : py_value) (t : npy_type)
    (min_depth max_depth : nat) : option (PyArrayObject (npy_elem t)) :=
  match op with
  | PyNdarray_v t' a =>
      match t', t return PyArrayObject (npy_elem t') →
                         option (PyArrayObject (npy_elem t)) with
      | NPY_INT32, NPY_INT32 => depth_ok min_depth max_depth
      | NPY_DOUBLE, NPY_DOUBLE => depth_ok min_depth max_depth
      | _, _ => λ _, None
      end a
  | _ => None
  end.

Lemma contiguous_from_object_depth op t min_depth max_depth pyo :
  contiguous_from_object op t min_depth max_depth = Some pyo →
  (min_depth ≤ length (PyArray_DIMS pyo) ≤ max_depth)%nat.
Proof.
  destruct op as [| | | |t' a|]; simpl; try discriminate.
  destruct t', t; try discriminate; unfold depth_ok;
    case_bool_decide; intros [= <-]; assumption.
Qed.

Definition runtime : PyRuntime := {|
  PyObject := py_value;
  PyArg_ParseTuple_siOOOOOO := parse_siOOOOOO;
  PyArg_ParseTuple_OO := parse_OO;
  PyArg_ParseTuple_iiiiiidi := parse_iiiiiidi;
  PyArray_ContiguousFromObject := contiguous_from_object;
  PyArray_ContiguousFromObject_depth := contiguous_from_object_depth
|}.

(** Arrays given by their shape and the list of their first elements,
    the elements past the list being zero. *)
Definition int32s (dims : list Z) (data : list Z) : PyArrayObject Z :=
  mkArray dims (λ k, nth (Z.to_nat k) data 0).

Definition doubles (dims : list Z) (data : list float) : PyArrayObject float :=
  mkArray dims (λ k, nth (Z.to_nat k) data 0%float).

Definition int32_array (dims : list Z) (data : list Z) : py_value :=
  PyNdarray_v NPY_INT32 (int32s dims data).

Definition double_array (dims : list Z) (data : list float) : py_value :=
  PyNdarray_v NPY_DOUBLE (doubles dims data).

(** A strategy for the examples: the first stop that has an access link
    to the origin zone and to the destination zone, reached on foot. *)
Definition walk_search (supply : Engine.NetworkSupply)
    (overlay : gmap (Z * Z * Z) float) (q : Engine.Query)
  : list (Z * StopState) :=
  let stops_of zone :=
    (λ l, l.1.2) <$>
      filter (λ l, l.1.1 = zone) (Engine.access_links supply) in
  match filter (λ s, s ∈ stops_of (Engine.destination_zone q))
               (stops_of (Engine.origin_zone q)) with
  | stop :: _ =>
      [(stop, {| label_ := 1%float; deparr_time_ := Engine.preferred_time q;
                 deparr_mode_ := -100; stop_succpred_ := Engine.origin_zone q;
                 seq_ := -1; seq_succpred_ := -1;
                 link_time_ := 2%float; cost_ := 3%float;
                 arrdep_time_ := Engine.preferred_time q |})]
  | [] => []
  end.

Definition engine : PathFinderClass Engine.PathFinder :=
  Engine.spec_engine walk_search walk_search.

(** A freshly started worker. *)
Definition pathfinder0 : Engine.PathFinder := {|
  Engine.output_dir_ := "";
  Engine.process_num_ := 0;
  Engine.supply_ := {| Engine.access_links := [];
                       Engine.stop_times := [];
                       Engine.transfers := [] |};
  Engine.bump_wait_ := ∅;
  Engine.trace_files_ := []
|}.

Definition heap0 : fresh_memory :=
  {| fresh_int32 := λ _, 7; fresh_double := λ _, 7%float |}.

Definition heap1 : fresh_memory :=
  {| fresh_int32 := λ k, k; fresh_double := λ _, 0%float |}.

(** Zone 1 and zone 2 are both linked to stop 10; a trip 5 serves stops
    10 and 20; no transfers. *)
Definition supply_args : py_value :=
  PyTuple_v [PyStr_v "out"; PyInt_v 3;
             int32_array [2; 2] [1; 10; 2; 10];
             double_array [2; 3] [5; 1; 1; 3; 1; 1]%float;
             int32_array [2; 3] [5; 1; 10; 5; 2; 20];
             double_array [2; 2] [100; 100; 120; 120]%float;
             int32_array [0; 2] [];
             double_array [0; 2] []].

(** The same call with the stop-time data replaced by a string. *)
Definition unconvertible_supply_args : py_value :=
  PyTuple_v [PyStr_v "out"; PyInt_v 3;
             int32_array [2; 2] [1; 10; 2; 10];
             double_array [2; 3] [5; 1; 1; 3; 1; 1]%float;
             int32_array [2; 3] [5; 1; 10; 5; 2; 20];
             PyStr_v "times";
             int32_array [0; 2] [];
             double_array [0; 2] []].

(** Trip 5 is full at stop 10 after time 95 and at stop 20 after 115. *)
Definition bump_index : PyArrayObject Z :=
  int32s [2; 3] [5; 1; 10; 5; 2; 20].

Definition bump_times : PyArrayObject float :=
  doubles [2] [95; 115]%float.

Definition bump_args : py_value :=
  PyTuple_v [PyNdarray_v NPY_INT32 bump_index;
             PyNdarray_v NPY_DOUBLE bump_times].

(** passenger 7, path 1, deterministic, zone 1 to zone 2, outbound,
    preferred time 90, no trace. *)
Definition query_args (hyperpath_i outbound_i trace_i : Z) : py_value :=
  PyTuple_v [PyInt_v 7; PyInt_v 1; PyInt_v hyperpath_i; PyInt_v 1; PyInt_v 2;
             PyInt_v outbound_i; PyFloat_v 90%float; PyInt_v trace_i].

(** The same query towards zone 9, which no access link reaches. *)
Definition unreachable_args : py_value :=
  PyTuple_v [PyInt_v 7; PyInt_v 1; PyInt_v 0; PyInt_v 1; PyInt_v 9;
             PyInt_v 1; PyFloat_v 90%float; PyInt_v 0].

(** An access index of 2^32 + 2 rows, all zeros past the first two rows,
    next to an access cost table of 2 rows. *)
Definition long_index : PyArrayObject Z :=
  int32s [4294967298; 2] [1; 10; 2; 10].

Definition short_cost : PyArrayObject float :=
  doubles [2; 3] [5; 1; 1; 3; 1; 1]%float.

Definition unequal_supply_args : py_value :=
  PyTuple_v [PyStr_v "out"; PyInt_v 3;
             PyNdarray_v NPY_INT32 long_index;
             PyNdarray_v NPY_DOUBLE short_cost;
             int32_array [2; 3] [5; 1; 10; 5; 2; 20];
             double_array [2; 2] [100; 100; 120; 120]%float;
             int32_array [0; 2] [];
             double_array [0; 2] []].

(** An access index that is three columns wide, next to an object that
    is no array. *)
Definition wide_supply_args : py_value :=
  PyTuple_v [PyStr_v "out"; PyInt_v 3;
             int32_array [1; 3] [1; 10; 0];
             PyNone_v;
             int32_array [0; 3] [];
             double_array [0; 2] [];
             int32_array [0; 2] [];
             double_array [0; 2] []].

(** A bump table of 2^32 rows: boarding trip 5 at stop 10 (sequence 1)
    is closed after time 95, the other rows are zeros. *)
Definition long_bump_index : PyArrayObject Z :=
  int32s [4294967296; 3] [5; 1; 10].

Definition long_bump_times : PyArrayObject float :=
  doubles [4294967296] [95%float].

Definition long_bump_args : py_value :=
  PyTuple_v [PyNdarray_v NPY_INT32 long_bump_index;
             PyNdarray_v NPY_DOUBLE long_bump_times].

(** An engine that lists the two zones of the query as the stops of its
    path and records no state for them. *)
Definition forgetful_engine : PathFinderClass unit := {|
  initializeSupply := λ _ _ _ _ _ _ _ _ _ _ _ pf, pf;
  setBumpWait := λ _ _ _ pf, pf;
  findPath := λ path_spec path_states path_stops pf,
    (path_states,
     path_stops ++ [origin_taz_id_ path_spec; destination_taz_id_ path_spec],
     pf);
  StopState_new := {|
    label_ := 0%float; deparr_time_ := 0%float; deparr_mode_ := 0;
    stop_succpred_ := 0; seq_ := 0; seq_succpred_ := 0;
    link_time_ := 0%float; cost_ := 0%float; arrdep_time_ := 0%float |}
|}.

(** The two builds: assertions live, and assertions compiled out. *)
Definition debug_build : BuildFlags := {| NDEBUG := false |}.

Definition release_build : BuildFlags := {| NDEBUG := true |}.

(** An access index of two rows beside an access cost table of three. *)
Definition short_index_supply_args : py_value :=
  PyTuple_v [PyStr_v "out"; PyInt_v 3;
             int32_array [2; 2] [1; 10; 2; 10];
             double_array [3; 3] [5; 1; 1; 3; 1; 1; 4; 1; 1]%float;
             int32_array [2; 3] [5; 1; 10; 5; 2; 20];
             double_array [2; 2] [100; 100; 120; 120]%float;
             int32_array [0; 2] [];
             double_array [0; 2] []].

(** The worker after [initialize_supply(supply_args)]. *)
Definition pathfinder1 : Engine.PathFinder :=
  (_fasttrips_initialize_supply (build := debug_build) (rt := runtime)
     (engine := engine) supply_args pathfinder0).2.

(** The worker after one more query, traced. *)
Definition pathfinder2 : Engine.PathFinder :=
  (_fasttrips_find_path (rt := runtime) (engine := engine)
     heap0 (query_args 0 1 1) pathfinder1).2.

End Sample.

(* ===================================================================== *)
(** ** Dimension checks of the two table-loading functions *)
(* ===================================================================== *)

(** A table that converts has width [w]. *)
Definition width_is {A} (w : Z) (converted : option (PyArrayObject A)) : Prop :=
  ∀ pyo, converted = Some pyo → dim pyo 1 = w.

(** Two tables that both convert have the same row count, as the code
    compares them: narrowed to [int]. *)
Definition same_int_rows {A B}
    (index : option (PyArrayObject A)) (data : option (PyArrayObject B)) : Prop :=
  ∀ pyo pyo', index = Some pyo → data = Some pyo' →
    to_int (dim pyo 0) = to_int (dim pyo' 0).

Section Assertions.
Context {build : BuildFlags} {rt : PyRuntime}.

(** No assertion of [initialize_supply] is violated by a table that
    converts. *)
Definition supply_assertions_hold (input1 input2 input3 input4 input5 input6 : PyObject)
  : Prop :=
  let c1 := PyArray_ContiguousFromObject input1 NPY_INT32 2 2 in
  let c2 := PyArray_ContiguousFromObject input2 NPY_DOUBLE 2 2 in
  let c3 := PyArray_ContiguousFromObject input3 NPY_INT32 2 2 in
  let c4 := PyArray_ContiguousFromObject input4 NPY_DOUBLE 2 2 in
  let c5 := PyArray_ContiguousFromObject input5 NPY_INT32 2 2 in
  let c6 := PyArray_ContiguousFromObject input6 NPY_DOUBLE 2 2 in
  (width_is 2 c1 ∧ width_is 3 c2 ∧ same_int_rows c1 c2) ∧
  (width_is 3 c3 ∧ width_is 2 c4 ∧ same_int_rows c3 c4) ∧
  (width_is 2 c5 ∧ width_is 2 c6 ∧ same_int_rows c5 c6).

(** [assert(c)] lets the run go on: the assertion is compiled out, or
    its condition holds. *)
Definition assert_passes (c : bool) : Prop := NDEBUG || c = true.

(** A run of [initialize_supply] reaches a conversion that fails: the
    tables before it convert and the run gets past the assertions that
    stand before it (lines 29-71). *)
Definition reaches_failed_conversion
    (input1 input2 input3 input4 input5 input6 : PyObject) : Prop :=
  match PyArray_ContiguousFromObject input1 NPY_INT32 2 2 with
  | None => True
  | Some acc_index =>
    assert_passes (bool_decide (2 = dim acc_index 1)) ∧
    match PyArray_ContiguousFromObject input2 NPY_DOUBLE 2 2 with
    | None => True
    | Some acc_cost =>
      assert_passes (bool_decide (3 = dim acc_cost 1)) ∧
      assert_passes (bool_decide (to_int (dim acc_index 0)
                                  = to_int (dim acc_cost 0))) ∧
      match PyArray_ContiguousFromObject input3 NPY_INT32 2 2 with
      | None => True
      | Some stop_index =>
        assert_passes (bool_decide (3 = dim stop_index 1)) ∧
        match PyArray_ContiguousFromObject input4 NPY_DOUBLE 2 2 with
        | None => True
        | Some stop_data =>
          assert_passes (bool_decide (2 = dim stop_data 1)) ∧
          assert_passes (bool_decide (to_int (dim stop_index 0)
                                      = to_int (dim stop_data 0))) ∧
          match PyArray_ContiguousFromObject input5 NPY_INT32 2 2 with
          | None => True
          | Some xfer_index =>
            assert_passes (bool_decide (2 = dim xfer_index 1)) ∧
            match PyArray_ContiguousFromObject input6 NPY_DOUBLE 2 2 with
            | None => True
            | Some xfer_data => False
            end
          end
        end
      end
    end
  end.
End Assertions.

(* ===================================================================== *)
(** ** The query of a [find_path] call and the engine's answer to it *)
(* ===================================================================== *)

(** The [path_spec] that lines 121-128 build from the parsed arguments. *)
Definition path_spec_of (parsed : Z * Z * Z * Z * Z * Z * float * Z)
  : PathSpecification :=
  let '(passenger_id, path_id, hyperpath_i, origin_taz_id,
        destination_taz_id, outbound_i, preferred_time, trace_i) := parsed in
  {| passenger_id_ := passenger_id;
     path_id_ := path_id;
     hyperpath_ := negb (bool_decide (hyperpath_i = 0));
     origin_taz_id_ := origin_taz_id;
     destination_taz_id_ := destination_taz_id;
     outbound_ := negb (bool_decide (outbound_i = 0));
     preferred_time_ := preferred_time;
     trace_ := negb (bool_decide (trace_i = 0)) |}.

Section Answer.
Context {PathFinder : Type} {engine : PathFinderClass PathFinder}.

(** What [findPath] leaves in the two containers of line 130-131, which
    every call hands over empty, and the engine after the call. *)
Definition searched_states (path_spec : PathSpecification) (pathfinder : PathFinder)
  : gmap Z StopState :=
  (findPath path_spec ∅ [] pathfinder).1.1.

Definition searched_stops (path_spec : PathSpecification) (pathfinder : PathFinder)
  : list Z :=
  (findPath path_spec ∅ [] pathfinder).1.2.

Definition pathfinder_after (path_spec : PathSpecification) (pathfinder : PathFinder)
  : PathFinder :=
  (findPath path_spec ∅ [] pathfinder).2.
End Answer.

(* ===================================================================== *)
(** ** Row counts as the code compares them *)
(* ===================================================================== *)

(** Two tables whose row counts differ by a multiple of 2^32. *)
Definition same_rows_modulo_2_32 {A B}
    (index : PyArrayObject A) (data : PyArrayObject B) : Prop :=
  (dim index 0 - dim data 0) `mod` 2 ^ 32 = 0.

(** The six tables of [initialize_supply] have their fixed widths and the
    paired index/data tables have the same row count modulo 2^32. *)
Definition dimensions_accepted
    (acc_index : PyArrayObject Z) (acc_cost : PyArrayObject float)
    (stop_index : PyArrayObject Z) (stop_data : PyArrayObject float)
    (xfer_index : PyArrayObject Z) (xfer_data : PyArrayObject float) : Prop :=
  (dim acc_index 1 = 2 ∧ dim acc_cost 1 = 3 ∧
   same_rows_modulo_2_32 acc_index acc_cost) ∧
  (dim stop_index 1 = 3 ∧ dim stop_data 1 = 2 ∧
   same_rows_modulo_2_32 stop_index stop_data) ∧
  (dim xfer_index 1 = 2 ∧ dim xfer_data 1 = 2 ∧
   same_rows_modulo_2_32 xfer_index xfer_data).

(* ===================================================================== *)
(** ** The method table and calls through it *)
(* ===================================================================== *)

Definition METH_VARARGS : Z := 1.

Section Method_table.
Context {build : BuildFlags} {rt : PyRuntime}
        {PathFinder : Type} {engine : PathFinderClass PathFinder}.

(** A C function of the module: it receives the argument tuple (and, in
    this embedding, the memory its allocations will find). *)
Definition PyCFunction : Type := fresh_memory → PyObject → M PathFinder PyReturn.

(** An entry of a method table; the sentinel has no name. *)
Record PyMethodDef : Type := {
  ml_name : option string;
  ml_meth : option PyCFunction;
  ml_flags : Z;
  ml_doc : option string
}.

(** Lines 164-169. *)
Definition fasttripsMethods : list PyMethodDef := [
  {| ml_name := Some "initialize_supply"%string;
     ml_meth := Some (λ _, _fasttrips_initialize_supply);
     ml_flags := METH_VARARGS;
     ml_doc := Some "Initialize network supply"%string |};
  {| ml_name := Some "set_bump_wait"%string;
     ml_meth := Some (λ _, _fasttrips_set_bump_wait);
     ml_flags := METH_VARARGS;
     ml_doc := Some "Update bump wait"%string |};
  {| ml_name := Some "find_path"%string;
     ml_meth := Some _fasttrips_find_path;
     ml_flags := METH_VARARGS;
     ml_doc := Some "Find trip-based path"%string |};
  {| ml_name := None; ml_meth := None; ml_flags := 0; ml_doc := None |}
  (* Sentinel *)
].

(** The method that [Py_InitModule] registers under a name: the table is
    read up to its sentinel. *)
Fixpoint find_method (name : string) (methods : list PyMethodDef)
  : option PyCFunction :=
  match methods with
  | [] => None
  | def :: methods =>
      match ml_name def with
      | None => None
      | Some n => if decide (n = name) then ml_meth def
                  else find_method name methods
      end
  end.

(** [_fasttrips.name(args)] from Python: the registered C function runs;
    a name the module does not have raises (AttributeError) before any C
    code of the module is reached. *)
Definition call_method (name : string) (heap : fresh_memory) (args : PyObject)
  : M PathFinder PyReturn :=
  match find_method name fasttripsMethods with
  | Some meth => meth heap args
  | None => return_NULL
  end.

(** One call of a Python program that uses the module. *)
Record method_call : Type := {
  call_name : string;
  call_heap : fresh_memory;
  call_args : PyObject
}.

(** A Python program that calls the module's methods one after the other
    and catches the exceptions they raise: the outcomes of the calls it
    gets to make, and the engine it leaves. A failed assertion ends the
    process, so no call is made after it. *)
Fixpoint run_calls (calls : list method_call) (pathfinder : PathFinder)
  : list (outcome PyReturn) * PathFinder :=
  match calls with
  | [] => ([], pathfinder)
  | c :: calls =>
      match call_method (call_name c) (call_heap c) (call_args c) pathfinder with
      | (Abort, pathfinder') => ([Abort], pathfinder')
      | (o, pathfinder') =>
          let '(outcomes, pathfinder'') := run_calls calls pathfinder' in
          (o :: outcomes, pathfinder'')
      end
  end.

(** The call raised a Python exception. *)
Definition raised (o : outcome PyReturn) : bool :=
  match o with ReturnNULL => true | _ => false end.

(** The calls of a program that did not raise, given the outcomes. *)
Definition calls_not_raising (calls : list method_call)
    (outcomes : list (outcome PyReturn)) : list method_call :=
  (filter (λ co, raised co.2 = false) (zip calls outcomes)).*1.

End Method_table.

(* ===================================================================== *)
(** ** More concrete calls *)
(* ===================================================================== *)

Module Calls.
Import Sample.

(** A query from zone 4 back to zone 4. *)
Definition same_zone_args : py_value :=
  PyTuple_v [PyInt_v 7; PyInt_v 1; PyInt_v 0; PyInt_v 4; PyInt_v 4;
             PyInt_v 1; PyFloat_v 90%float; PyInt_v 0].

(** An engine, its state a stop number, that labels that stop while it
    explores, labels the origin of the query, and puts only the origin on
    the path. *)
Definition exploring_engine : PathFinderClass Z := {|
  initializeSupply := λ _ _ _ _ _ _ _ _ _ _ _ pf, pf;
  setBumpWait := λ _ _ _ pf, pf;
  findPath := λ path_spec path_states path_stops pf,
    (<[origin_taz_id_ path_spec :=
         {| label_ := 1%float; deparr_time_ := preferred_time_ path_spec;
            deparr_mode_ := -100; stop_succpred_ := destination_taz_id_ path_spec;
            seq_ := -1; seq_succpred_ := -1; link_time_ := 2%float;
            cost_ := 3%float; arrdep_time_ := preferred_time_ path_spec |}]>
       (<[pf :=
            {| label_ := 9%float; deparr_time_ := 9%float; deparr_mode_ := 9;
               stop_succpred_ := 9; seq_ := 9; seq_succpred_ := 9;
               link_time_ := 9%float; cost_ := 9%float;
               arrdep_time_ := 9%float |}]> path_states),
     path_stops ++ [origin_taz_id_ path_spec],
     pf);
  StopState_new := {|
    label_ := 0%float; deparr_time_ := 0%float; deparr_mode_ := 0;
    stop_succpred_ := 0; seq_ := 0; seq_succpred_ := 0;
    link_time_ := 0%float; cost_ := 0%float; arrdep_time_ := 0%float |}
|}.

(** A program: build the sample network, call a method the module does
    not have, set the overlay from a string, query, load a network whose
    first table is three columns wide and whose second is no table, and
    query again. *)
Definition call (name : string) (heap : fresh_memory) (args : py_value)
  : method_call (rt := runtime) :=
  {| call_name := name; call_heap := heap;
     call_args := (args : PyObject (PyRuntime := runtime)) |}.

Definition program : list (method_call (rt := runtime)) := [
  call "initialize_supply" heap0 supply_args;
  call "build_supply" heap0 supply_args;
  call "set_bump_wait" heap0 (PyStr_v "bump");
  call "find_path" heap0 (query_args 0 1 0);
  call "initialize_supply" heap0 wide_supply_args;
  call "find_path" heap1 (query_args 0 1 0)
].

End Calls.

(* ===================================================================== *)
(** * Properties *)
(* ===================================================================== *)

(** ** Narrowing to [int] *)

Lemma to_int_in_range z : in_int_range z → to_int z = z.
Proof.
  unfold in_int_range, INT_MIN, INT_MAX, to_int. intros Hz.
  rewrite Z.mod_small; lia.
Qed.

Lemma to_int_wraps z : to_int (z + 2 ^ 32) = to_int z.
Proof.
  unfold to_int. replace (z + 2 ^ 32 + 2 ^ 31) with (z + 2 ^ 31 + 1 * 2 ^ 32) by lia.
  by rewrite Z.mod_add.
Qed.

Lemma to_int_eq_in_range x y :
  in_int_range x → in_int_range y → to_int x = to_int y ↔ x = y.
Proof. intros Hx Hy. by rewrite !to_int_in_range. Qed.

(** ** Converted tables *)

(** A table converted with depth bounds (2, 2) has exactly the two
    dimensions that the module reads. *)
Lemma converted_table_shape {rt : PyRuntime} op t pyo :
  PyArray_ContiguousFromObject op t 2 2 = Some pyo →
  PyArray_DIMS pyo = [dim pyo 0; dim pyo 1].
Proof.
  intros Hconv. apply PyArray_ContiguousFromObject_depth in Hconv.
  unfold dim. destruct (PyArray_DIMS pyo) as [|n [|w [|]]]; simpl in *; [lia..|done|lia].
Qed.

(** A vector converted with depth bounds (1, 1) has exactly one. *)
Lemma converted_vector_shape {rt : PyRuntime} op t pyo :
  PyArray_ContiguousFromObject op t 1 1 = Some pyo →
  PyArray_DIMS pyo = [dim pyo 0].
Proof.
  intros Hconv. apply PyArray_ContiguousFromObject_depth in Hconv.
  unfold dim. destruct (PyArray_DIMS pyo) as [|n [|]]; simpl in *; [lia|done|lia].
Qed.

(** ** Running a module function *)

Ltac unfold_run :=
  unfold mbind, M_bind, mret, M_ret, or_return_NULL, return_NULL,
    assert, on_pathfinder.

(** Case analysis on the next array conversion of the goal. *)
Ltac next_conversion :=
  match goal with
  | |- context [PyArray_ContiguousFromObject ?op ?t ?lo ?hi] =>
      let E := fresh "Hconv" in
      destruct (PyArray_ContiguousFromObject op t lo hi) eqn:E; simpl
  end.

(** Instantiate the assumed assertions at the tables that converted. *)
Ltac use_assertions :=
  repeat match goal with
  | H : ∀ pyo, Some _ = Some pyo → _ |- _ => specialize (H _ eq_refl)
  | H : ∀ pyo pyo', Some _ = Some pyo → Some _ = Some pyo' → _ |- _ =>
      specialize (H _ _ eq_refl eq_refl)
  end.

Section Table_loading.
Context {build : BuildFlags} {rt : PyRuntime}
        {PathFinder : Type} {engine : PathFinderClass PathFinder}.

(** A failed [initialize_supply] never reaches the engine. *)
Lemma initialize_supply_error_untouched args (pathfinder : PathFinder) :
  is_error (_fasttrips_initialize_supply args pathfinder).1 = true →
  (_fasttrips_initialize_supply args pathfinder).2 = pathfinder.
Proof.
  unfold _fasttrips_initialize_supply.
  destruct (PyArg_ParseTuple_siOOOOOO args)
    as [[[[[[[[output_dir proc_num] i1] i2] i3] i4] i5] i6]|]; [|done].
  unfold_run. destruct NDEBUG;
    repeat (first [ next_conversion; [|done]
                  | case_bool_decide; simpl; [|done] ]);
    discriminate.
Qed.

(** A failed [set_bump_wait] never reaches the engine. *)
Lemma set_bump_wait_error_untouched args (pathfinder : PathFinder) :
  is_error (_fasttrips_set_bump_wait args pathfinder).1 = true →
  (_fasttrips_set_bump_wait args pathfinder).2 = pathfinder.
Proof.
  unfold _fasttrips_set_bump_wait.
  destruct (PyArg_ParseTuple_OO args) as [[i1 i2]|]; [|done].
  unfold_run. destruct NDEBUG;
    repeat (first [ next_conversion; [|done]
                  | case_bool_decide; simpl; [|done] ]);
    discriminate.
Qed.

(** The run reaches a failed conversion: it returns NULL there. *)
Lemma initialize_supply_returns_at_failed_conversion
    args (pathfinder : PathFinder)
    output_dir proc_num input1 input2 input3 input4 input5 input6 :
  PyArg_ParseTuple_siOOOOOO args
    = Some (output_dir, proc_num, input1, input2, input3, input4, input5, input6) →
  reaches_failed_conversion input1 input2 input3 input4 input5 input6 →
  _fasttrips_initialize_supply args pathfinder = (ReturnNULL, pathfinder).
Proof.
  intros Hargs. unfold reaches_failed_conversion, assert_passes.
  unfold _fasttrips_initialize_supply. rewrite Hargs. unfold_run.
  destruct NDEBUG; simpl;
    repeat (next_conversion; [|done];
            let H := fresh "H" in
            intros H;
            repeat (let Hc := fresh "Hc" in
                    destruct H as [Hc H]; try rewrite Hc; simpl);
            revert H);
    done.
Qed.

(** C3. Build supply is all-or-nothing on a conversion failure. For every
    [initialize_supply] call in which the conversion of one of the six
    tables fails (the run reaches the conversion and it returns NULL), the
    call returns the error with the engine untouched, so the installed
    supply is unchanged. In a build without assertions this is every call
    one of whose tables does not convert. In any build, a call one of
    whose tables does not convert fails with the engine untouched, and
    returns the error unless a live assertion on a table that did convert
    stops the run first. *)
Theorem initialize_supply_conversion_failure_is_atomic
    (args : PyObject) (pathfinder : PathFinder)
    output_dir proc_num input1 input2 input3 input4 input5 input6 :
  PyArg_ParseTuple_siOOOOOO args
    = Some (output_dir, proc_num, input1, input2, input3, input4, input5, input6) →
  (reaches_failed_conversion input1 input2 input3 input4 input5 input6 →
   _fasttrips_initialize_supply args pathfinder = (ReturnNULL, pathfinder)) ∧
  (PyArray_ContiguousFromObject input1 NPY_INT32 2 2 = None ∨
   PyArray_ContiguousFromObject input2 NPY_DOUBLE 2 2 = None ∨
   PyArray_ContiguousFromObject input3 NPY_INT32 2 2 = None ∨
   PyArray_ContiguousFromObject input4 NPY_DOUBLE 2 2 = None ∨
   PyArray_ContiguousFromObject input5 NPY_INT32 2 2 = None ∨
   PyArray_ContiguousFromObject input6 NPY_DOUBLE 2 2 = None →
   (_fasttrips_initialize_supply args pathfinder).2 = pathfinder ∧
   is_error (_fasttrips_initialize_supply args pathfinder).1 = true ∧
   (NDEBUG = true →
    _fasttrips_initialize_supply args pathfinder = (ReturnNULL, pathfinder)) ∧
   (supply_assertions_hold input1 input2 input3 input4 input5 input6 →
    _fasttrips_initialize_supply args pathfinder = (ReturnNULL, pathfinder))).
Proof.
  intros Hargs.
  split; [by eapply initialize_supply_returns_at_failed_conversion|].
  intros Hfail.
  assert (Herr : is_error (_fasttrips_initialize_supply args pathfinder).1 = true
                 ∧ (NDEBUG = true →
                    (_fasttrips_initialize_supply args pathfinder).1 = ReturnNULL)
                 ∧ (supply_assertions_hold input1 input2 input3 input4 input5 input6 →
                    (_fasttrips_initialize_supply args pathfinder).1 = ReturnNULL)).
  { unfold supply_assertions_hold, width_is, same_int_rows.
    unfold _fasttrips_initialize_supply. rewrite Hargs. unfold_run.
    destruct NDEBUG; simpl;
      repeat (first [ next_conversion; [|done]
                    | case_bool_decide; simpl;
                      [|split; [done|]; split; [done|];
                        intros [(?&?&?) [(?&?&?) (?&?&?)]]; exfalso;
                        use_assertions; congruence] ]);
      exfalso; intuition congruence. }
  destruct Herr as (Herr & Hrelease & Hhold).
  pose proof (initialize_supply_error_untouched args pathfinder Herr) as Hsame.
  destruct (_fasttrips_initialize_supply args pathfinder) as [o pf'].
  simpl in *. subst pf'. split_and!; [done..| |].
  - intros Hb. by rewrite (Hrelease Hb).
  - intros Hh. by rewrite (Hhold Hh).
Qed.

(** X2. [set_bump_wait] reaches the engine only through its conversions
    and, where they are live, its assertions: a call that does not return
    None leaves the engine as it was; a call returns None only if both
    tables convert, the index table to a 2-d array and the time table to a
    vector, and the engine received exactly these tables with the row
    count of the index table narrowed to [int]; in a build with live
    assertions the index table is then three columns wide and the two
    tables agree on their row count narrowed to [int]. *)
Theorem set_bump_wait_validates_tables
    (args : PyObject) (pathfinder : PathFinder) :
  (is_error (_fasttrips_set_bump_wait args pathfinder).1 = true →
   (_fasttrips_set_bump_wait args pathfinder).2 = pathfinder) ∧
  (∀ ret,
     (_fasttrips_set_bump_wait args pathfinder).1 = Value ret →
     ∃ input1 input2
       (bw_index : PyArrayObject Z) (bw_times : PyArrayObject float),
       PyArg_ParseTuple_OO args = Some (input1, input2) ∧
       PyArray_ContiguousFromObject input1 NPY_INT32 2 2 = Some bw_index ∧
       PyArray_ContiguousFromObject input2 NPY_DOUBLE 1 1 = Some bw_times ∧
       PyArray_DIMS bw_index = [dim bw_index 0; dim bw_index 1] ∧
       PyArray_DIMS bw_times = [dim bw_times 0] ∧
       (NDEBUG = false →
        dim bw_index 1 = 3 ∧
        to_int (dim bw_times 0) = to_int (dim bw_index 0)) ∧
       _fasttrips_set_bump_wait args pathfinder
       = (Value Py_None,
          setBumpWait (PyArray_DATA bw_index) (PyArray_DATA bw_times)
                      (to_int (dim bw_index 0)) pathfinder)).
Proof.
  split; [apply set_bump_wait_error_untouched|].
  unfold _fasttrips_set_bump_wait.
  destruct (PyArg_ParseTuple_OO args) as [[i1 i2]|]; [|done].
  unfold_run. destruct NDEBUG; simpl.
  - next_conversion; [|done]. next_conversion; [|done].
    intros ret _. eexists _, _, _, _. split_and!; try done.
    + exact (converted_table_shape _ _ _ Hconv).
    + exact (converted_vector_shape _ _ _ Hconv0).
  - next_conversion; [|done]. case_bool_decide as Hwidth; simpl; [|done].
    next_conversion; [|done]. case_bool_decide as Hrows; simpl; [|done].
    intros ret _. eexists _, _, _, _. split_and!; try done.
    + exact (converted_table_shape _ _ _ Hconv).
    + exact (converted_vector_shape _ _ _ Hconv0).
Qed.

End Table_loading.

(** ** Marshalling the path *)

Section Marshalling.
Context {PathFinder : Type} {engine : PathFinderClass PathFinder}.

Lemma map_subscript_fst (m : gmap Z StopState) k :
  (map_subscript m k).1 = default StopState_new (m !! k).
Proof. unfold map_subscript. by destruct (m !! k). Qed.

(** A second subscript with the same key finds the record of the first. *)
Lemma map_subscript_again (m : gmap Z StopState) k :
  map_subscript (map_subscript m k).2 k
  = ((map_subscript m k).1, (map_subscript m k).2).
Proof.
  unfold map_subscript. destruct (m !! k) eqn:E; simpl.
  - by rewrite E.
  - by rewrite lookup_insert_eq.
Qed.

(** A subscript changes what no later subscript reads. *)
Lemma map_subscript_frame (m : gmap Z StopState) k k' :
  (map_subscript (map_subscript m k).2 k').1 = (map_subscript m k').1.
Proof.
  rewrite !map_subscript_fst. unfold map_subscript.
  destruct (m !! k) eqn:E; simpl; [done|].
  destruct (decide (k = k')) as [->|Hne].
  - by rewrite lookup_insert_eq, E.
  - by rewrite lookup_insert_ne.
Qed.

(** One turn of the loop writes the five cells of row [ind] in each
    array, from the record under the stop id, and nothing else. *)
Lemma marshal_row_cells path_stops m ret_int ret_double ind n :
  PyArray_DIMS ret_int = [n; 5] → PyArray_DIMS ret_double = [n; 5] →
  let stop_id := nth ind path_stops 0 in
  let s := (map_subscript m stop_id).1 in
  ∃ ret_int' ret_double',
    marshal_row path_stops (m, ret_int, ret_double) ind
    = ((map_subscript m stop_id).2, ret_int', ret_double') ∧
    PyArray_DIMS ret_int' = [n; 5] ∧ PyArray_DIMS ret_double' = [n; 5] ∧
    (∀ j, 0 ≤ j < 5 →
       PyArray_DATA ret_int' (Z.of_nat ind * 5 + j)
       = nth (Z.to_nat j) (int_row stop_id s) 0) ∧
    (∀ j, 0 ≤ j < 5 →
       PyArray_DATA ret_double' (Z.of_nat ind * 5 + j)
       = nth (Z.to_nat j) (double_row s) 0%float) ∧
    (∀ k, ¬ (Z.of_nat ind * 5 ≤ k < Z.of_nat ind * 5 + 5) →
       PyArray_DATA ret_int' k = PyArray_DATA ret_int k ∧
       PyArray_DATA ret_double' k = PyArray_DATA ret_double k).
Proof.
  intros Hi Hd stop_id s. unfold marshal_row. fold stop_id.
  destruct (map_subscript m stop_id) as [s0 m0] eqn:E0.
  assert (Hagain : map_subscript m0 stop_id = (s0, m0)).
  { pose proof (map_subscript_again m stop_id) as H. by rewrite E0 in H. }
  rewrite !Hagain. subst s. simpl.
  eexists _, _. split; [reflexivity|].
  unfold PyArray_SETPTR2, dim; simpl. rewrite Hi, Hd; simpl.
  split_and!; [done|done|..].
  - intros j Hj.
    assert (j = 0 ∨ j = 1 ∨ j = 2 ∨ j = 3 ∨ j = 4) as [->|[->|[->|[->| ->]]]]
      by lia; repeat (case_bool_decide; [lia || done|]); lia.
  - intros j Hj.
    assert (j = 0 ∨ j = 1 ∨ j = 2 ∨ j = 3 ∨ j = 4) as [->|[->|[->|[->| ->]]]]
      by lia; repeat (case_bool_decide; [lia || done|]); lia.
  - intros k Hk. split; repeat (case_bool_decide; [lia|]); done.
Qed.

(** The loop invariant after [k] turns. *)
Lemma marshal_loop_invariant path_stops m ret_int ret_double n k :
  PyArray_DIMS ret_int = [n; 5] → PyArray_DIMS ret_double = [n; 5] →
  ∃ m' ret_int' ret_double',
    foldl (marshal_row path_stops) (m, ret_int, ret_double) (seq 0 k)
    = (m', ret_int', ret_double') ∧
    PyArray_DIMS ret_int' = [n; 5] ∧ PyArray_DIMS ret_double' = [n; 5] ∧
    (∀ key, (map_subscript m' key).1 = (map_subscript m key).1) ∧
    (∀ (i : nat) j, (i < k)%nat → 0 ≤ j < 5 →
       PyArray_DATA ret_int' (Z.of_nat i * 5 + j)
       = nth (Z.to_nat j)
           (int_row (nth i path_stops 0)
                    (map_subscript m (nth i path_stops 0)).1) 0 ∧
       PyArray_DATA ret_double' (Z.of_nat i * 5 + j)
       = nth (Z.to_nat j)
           (double_row (map_subscript m (nth i path_stops 0)).1) 0%float).
Proof.
  intros Hi Hd. induction k as [|k IH].
  - eexists _, _, _. split; [reflexivity|]. split_and!; [done..|].
    intros i j Hik. lia.
  - destruct IH as (m' & ri & rd & Hrun & Hi' & Hd' & Hm & Hcells).
    rewrite seq_S, foldl_app, Hrun. cbn [foldl Nat.add].
    destruct (marshal_row_cells path_stops m' ri rd k n Hi' Hd')
      as (ri' & rd' & Hrow & Hi'' & Hd'' & Hint & Hdbl & Hrest).
    rewrite Hrow. eexists _, _, _. split; [reflexivity|].
    split_and!; [done|done|..].
    + intros key. by rewrite map_subscript_frame.
    + intros i j Hik Hj.
      destruct (decide (i = k)) as [->|Hne].
      * rewrite Hint, Hdbl by done. by rewrite !Hm.
      * destruct (Hrest (Z.of_nat i * 5 + j)) as [-> ->]; [lia|].
        apply Hcells; [lia|done].
Qed.

(** The rows Python reads from the two arrays: one per stop, in the
    order of the stop list, whatever the allocator had left in memory. *)
Lemma marshal_path_rows heap (path_states : gmap Z StopState) path_stops :
  ∃ m ret_int ret_double,
    marshal_path heap path_states path_stops = (m, ret_int, ret_double) ∧
    PyArray_DIMS ret_int = [Z.of_nat (length path_stops); 5] ∧
    PyArray_DIMS ret_double = [Z.of_nat (length path_stops); 5] ∧
    array_rows ret_int
    = (λ stop_id, int_row stop_id (map_subscript path_states stop_id).1)
        <$> path_stops ∧
    array_rows ret_double
    = (λ stop_id, double_row (map_subscript path_states stop_id).1)
        <$> path_stops.
Proof.
  unfold marshal_path. simpl. rewrite Nat2Z.id.
  destruct (marshal_loop_invariant path_stops path_states
              (PyArray_SimpleNew [Z.of_nat (length path_stops); 5] (fresh_int32 heap))
              (PyArray_SimpleNew [Z.of_nat (length path_stops); 5] (fresh_double heap))
              (Z.of_nat (length path_stops)) (length path_stops) eq_refl eq_refl)
    as (m & ri & rd & Hrun & Hi & Hd & _ & Hcells).
  exists m, ri, rd. split; [done|]. split; [done|]. split; [done|].
  assert (Hfive : seqZ 0 5 = [0; 1; 2; 3; 4]) by reflexivity.
  unfold array_rows, dim. rewrite Hi, Hd. cbn [nth]. rewrite Hfive.
  split; apply list_eq; intros i; rewrite !list_lookup_fmap;
    destruct (decide (i < length path_stops)%nat) as [Hlt|Hge].
  - rewrite lookup_seqZ_lt, Z.add_0_l by lia.
    destruct (lookup_lt_is_Some_2 path_stops i Hlt) as [stop_id Hstop].
    rewrite Hstop. simpl. f_equal.
    assert (nth i path_stops 0 = stop_id) as Hnth
      by (by apply nth_lookup_Some with (d := 0) in Hstop).
    pose proof (λ j Hj, proj1 (Hcells i j Hlt Hj)) as Hrow.
    rewrite Hnth in Hrow.
    rewrite (Hrow 0), (Hrow 1), (Hrow 2), (Hrow 3), (Hrow 4) by lia. done.
  - rewrite lookup_seqZ_ge by lia. by rewrite lookup_ge_None_2 by lia.
  - rewrite lookup_seqZ_lt, Z.add_0_l by lia.
    destruct (lookup_lt_is_Some_2 path_stops i Hlt) as [stop_id Hstop].
    rewrite Hstop. simpl. f_equal.
    assert (nth i path_stops 0 = stop_id) as Hnth
      by (by apply nth_lookup_Some with (d := 0) in Hstop).
    pose proof (λ j Hj, proj2 (Hcells i j Hlt Hj)) as Hrow.
    rewrite Hnth in Hrow.
    rewrite (Hrow 0), (Hrow 1), (Hrow 2), (Hrow 3), (Hrow 4) by lia. done.
  - rewrite lookup_seqZ_ge by lia. by rewrite lookup_ge_None_2 by lia.
Qed.

End Marshalling.

(** ** [find_path] *)

Section Find_path.
Context {rt : PyRuntime} {PathFinder : Type} {engine : PathFinderClass PathFinder}.

(** A call whose arguments parse asks the engine once, with empty
    containers, and returns the two marshalled arrays. *)
Lemma find_path_run heap args parsed (pathfinder : PathFinder) :
  PyArg_ParseTuple_iiiiiidi args = Some parsed →
  let path_spec := path_spec_of parsed in
  let marshalled :=
    marshal_path heap (searched_states path_spec pathfinder)
                 (searched_stops path_spec pathfinder) in
  _fasttrips_find_path heap args pathfinder
  = (Value (Py_Tuple_OO marshalled.1.2 marshalled.2),
     pathfinder_after path_spec pathfinder).
Proof.
  intros Hargs. unfold _fasttrips_find_path. rewrite Hargs.
  destruct parsed as [[[[[[[a b] c] d] e] f] x] g].
  unfold searched_states, searched_stops, pathfinder_after. simpl.
  destruct (findPath _ ∅ [] pathfinder) as [[path_states path_stops] pathfinder'].
  simpl. by destruct (marshal_path heap path_states path_stops) as [[m ri] rd].
Qed.

(** What Python sees of a call: one integer row and one numeric row per
    stop of the engine's stop list, in its order. *)
Lemma find_path_view heap args parsed (pathfinder : PathFinder) :
  PyArg_ParseTuple_iiiiiidi args = Some parsed →
  let path_states := searched_states (path_spec_of parsed) pathfinder in
  let path_stops := searched_stops (path_spec_of parsed) pathfinder in
  python_view (_fasttrips_find_path heap args pathfinder).1
  = Value (Some
      ([Z.of_nat (length path_stops); 5],
       (λ stop_id, int_row stop_id (map_subscript path_states stop_id).1)
         <$> path_stops,
       ([Z.of_nat (length path_stops); 5],
        (λ stop_id, double_row (map_subscript path_states stop_id).1)
          <$> path_stops))).
Proof.
  intros Hargs path_states path_stops.
  rewrite (find_path_run heap args parsed pathfinder Hargs). simpl.
  destruct (marshal_path_rows heap path_states path_stops)
    as (m & ri & rd & Hrun & Hi & Hd & Hri & Hrd).
  fold path_states path_stops. rewrite Hrun. simpl.
  by rewrite Hi, Hd, Hri, Hrd.
Qed.

(** The same, on the returned arrays themselves. *)
Lemma find_path_arrays heap args parsed (pathfinder : PathFinder) :
  PyArg_ParseTuple_iiiiiidi args = Some parsed →
  ∃ ret_int ret_double,
    _fasttrips_find_path heap args pathfinder
    = (Value (Py_Tuple_OO ret_int ret_double),
       pathfinder_after (path_spec_of parsed) pathfinder) ∧
    array_rows ret_int
    = (λ stop_id,
         int_row stop_id
           (map_subscript (searched_states (path_spec_of parsed) pathfinder)
                          stop_id).1)
        <$> searched_stops (path_spec_of parsed) pathfinder ∧
    array_rows ret_double
    = (λ stop_id,
         double_row
           (map_subscript (searched_states (path_spec_of parsed) pathfinder)
                          stop_id).1)
        <$> searched_stops (path_spec_of parsed) pathfinder.
Proof.
  intros Hargs.
  pose proof (find_path_view heap args parsed pathfinder Hargs) as Hview.
  rewrite (find_path_run heap args parsed pathfinder Hargs) in *.
  simpl in Hview. eexists _, _. split; [reflexivity|].
  injection Hview as _ Hri _ Hrd. by split.
Qed.

(** X1. The marshalling loop writes every cell of the two arrays: what
    Python sees of a [find_path] call, and the engine after the call, do
    not depend on what the allocator had left in the arrays' memory. *)
Theorem find_path_overwrites_fresh_memory
    heap heap' args (pathfinder : PathFinder) :
  python_view (_fasttrips_find_path heap args pathfinder).1
  = python_view (_fasttrips_find_path heap' args pathfinder).1 ∧
  (_fasttrips_find_path heap args pathfinder).2
  = (_fasttrips_find_path heap' args pathfinder).2.
Proof.
  destruct (PyArg_ParseTuple_iiiiiidi args) as [parsed|] eqn:Hargs.
  - rewrite (find_path_view heap args parsed pathfinder Hargs).
    rewrite (find_path_view heap' args parsed pathfinder Hargs).
    by rewrite !(find_path_run _ args parsed pathfinder Hargs).
  - unfold _fasttrips_find_path. by rewrite Hargs.
Qed.

(** C1. Every [find_path] call (one whose arguments make a
    PathSpecification) returns a pair of arrays, never an error: the
    integer array and the numeric array have the same number of rows, of
    five fields each, one row per stop of the path and in the order of
    the path, the stop id leading the integer row. When the search finds
    no path (it leaves the stop list empty) both arrays are empty. *)
Theorem find_path_returns_parallel_rows
    heap args parsed (pathfinder : PathFinder) :
  PyArg_ParseTuple_iiiiiidi args = Some parsed →
  ∃ ret_int ret_double,
    (_fasttrips_find_path heap args pathfinder).1
    = Value (Py_Tuple_OO ret_int ret_double) ∧
    length (array_rows ret_int)
    = length (searched_stops (path_spec_of parsed) pathfinder) ∧
    length (array_rows ret_double)
    = length (searched_stops (path_spec_of parsed) pathfinder) ∧
    Forall (λ row, length row = 5%nat) (array_rows ret_int) ∧
    Forall (λ row, length row = 5%nat) (array_rows ret_double) ∧
    (λ row, nth 0 row 0) <$> array_rows ret_int
    = searched_stops (path_spec_of parsed) pathfinder ∧
    (searched_stops (path_spec_of parsed) pathfinder = [] →
     array_rows ret_int = [] ∧ array_rows ret_double = []).
Proof.
  intros Hargs.
  destruct (find_path_arrays heap args parsed pathfinder Hargs)
    as (ri & rd & Hrun & Hri & Hrd).
  exists ri, rd. rewrite Hrun, Hri, Hrd. simpl.
  split; [done|]. rewrite !length_fmap.
  split; [done|]. split; [done|].
  split; [by apply Forall_fmap, Forall_true|].
  split; [by apply Forall_fmap, Forall_true|].
  split.
  - rewrite <- list_fmap_compose. clear.
    induction (searched_stops (path_spec_of parsed) pathfinder)
      as [|stop_id stops IH]; [done|]. rewrite fmap_cons, IH. done.
  - by intros ->.
Qed.

(** C5. In the pair a [find_path] call returns, row [i] carries the
    StopState record of the [i]-th stop of the path, read from the
    per-query map under that stop's id (the record the map holds there,
    the default-constructed one where it holds none): the integer row
    holds the stop id, the link mode, the neighbour stop, the own and the
    neighbour sequence number; the numeric row holds the label, the
    arrival-or-departure time, the link time, the cost and the other-end
    time. The arrays have no other rows. *)
Theorem find_path_rows_carry_stop_states
    heap args parsed (pathfinder : PathFinder) :
  PyArg_ParseTuple_iiiiiidi args = Some parsed →
  ∃ ret_int ret_double,
    (_fasttrips_find_path heap args pathfinder).1
    = Value (Py_Tuple_OO ret_int ret_double) ∧
    length (array_rows ret_int)
    = length (searched_stops (path_spec_of parsed) pathfinder) ∧
    length (array_rows ret_double)
    = length (searched_stops (path_spec_of parsed) pathfinder) ∧
    ∀ (i : nat) stop_id s,
      searched_stops (path_spec_of parsed) pathfinder !! i = Some stop_id →
      default StopState_new
        (searched_states (path_spec_of parsed) pathfinder !! stop_id) = s →
      array_rows ret_int !! i
      = Some [stop_id; deparr_mode_ s; stop_succpred_ s; seq_ s;
              seq_succpred_ s] ∧
      array_rows ret_double !! i
      = Some [label_ s; deparr_time_ s; link_time_ s; cost_ s;
              arrdep_time_ s].
Proof.
  intros Hargs.
  destruct (find_path_arrays heap args parsed pathfinder Hargs)
    as (ri & rd & Hrun & Hri & Hrd).
  exists ri, rd. rewrite Hrun, Hri, Hrd. rewrite !length_fmap.
  split_and!; [done..|].
  intros i stop_id s Hstop <-.
  by rewrite !list_lookup_fmap, Hstop; simpl; rewrite map_subscript_fst.
Qed.


(** C10. Marshalling never fails on a map lookup: every output row is
    read through the defaulting subscript of the per-query map. For a
    stop id of the stop list that the map does not hold, the call still
    returns and the row is filled from the default-constructed
    StopState; for a stop id the map holds, the row is filled from the
    recorded entry. The output reflects the search only where the search
    recorded an entry for the stop. *)
Theorem find_path_lookups_default
    heap args parsed (pathfinder : PathFinder) :
  PyArg_ParseTuple_iiiiiidi args = Some parsed →
  ∃ ret_int ret_double,
    (_fasttrips_find_path heap args pathfinder).1
    = Value (Py_Tuple_OO ret_int ret_double) ∧
    (∀ (i : nat) stop_id,
       searched_stops (path_spec_of parsed) pathfinder !! i = Some stop_id →
       searched_states (path_spec_of parsed) pathfinder !! stop_id = None →
       array_rows ret_int !! i = Some (int_row stop_id StopState_new) ∧
       array_rows ret_double !! i = Some (double_row StopState_new)) ∧
    (∀ (i : nat) stop_id s,
       searched_stops (path_spec_of parsed) pathfinder !! i = Some stop_id →
       searched_states (path_spec_of parsed) pathfinder !! stop_id = Some s →
       array_rows ret_int !! i = Some (int_row stop_id s) ∧
       array_rows ret_double !! i = Some (double_row s)).
Proof.
  intros Hargs.
  destruct (find_path_arrays heap args parsed pathfinder Hargs)
    as (ri & rd & Hrun & Hri & Hrd).
  exists ri, rd. rewrite Hrun, Hri, Hrd. split; [done|].
  split.
  - intros i stop_id Hstop Hstate.
    by rewrite !list_lookup_fmap, Hstop; simpl; rewrite map_subscript_fst, Hstate.
  - intros i stop_id s Hstop Hstate.
    by rewrite !list_lookup_fmap, Hstop; simpl; rewrite map_subscript_fst, Hstate.
Qed.

End Find_path.

(** ** The module over the engine of the design *)

Section Designed_engine.
Context {rt : PyRuntime}.
Variable deterministic_search hyperpath_search :
  Engine.NetworkSupply → gmap (Z * Z * Z) float → Engine.Query
  → list (Z * StopState).

Local Abbreviation the_engine :=
  (Engine.spec_engine deterministic_search hyperpath_search).
Local Abbreviation find_path :=
  (_fasttrips_find_path (engine := the_engine)).

(** The engine reads the network, the overlay, the mode and the query,
    and nothing else of the worker or of the PathSpecification. *)
Lemma search_path_ext path_spec path_spec' (pf pf' : Engine.PathFinder) :
  Engine.query_of path_spec = Engine.query_of path_spec' →
  hyperpath_ path_spec = hyperpath_ path_spec' →
  Engine.supply_ pf = Engine.supply_ pf' →
  Engine.bump_wait_ pf = Engine.bump_wait_ pf' →
  Engine.search_path deterministic_search hyperpath_search path_spec pf
  = Engine.search_path deterministic_search hyperpath_search path_spec' pf'.
Proof.
  intros Hq Hh Hs Hb. unfold Engine.search_path. by rewrite Hq, Hh, Hs, Hb.
Qed.

Lemma designed_answer path_spec (pf : Engine.PathFinder) :
  let path :=
    Engine.search_path deterministic_search hyperpath_search path_spec pf in
  searched_states (engine := the_engine) path_spec pf
  = foldl (λ (m : gmap Z StopState) e, <[e.1 := e.2]> m) ∅ path ∧
  searched_stops (engine := the_engine) path_spec pf = path.*1.
Proof. done. Qed.

(** Two calls whose queries and modes agree, on workers whose network
    and overlay agree, show Python the same result. *)
Lemma find_path_view_ext heap heap' args args' parsed parsed'
    (pf pf' : Engine.PathFinder) :
  PyArg_ParseTuple_iiiiiidi args = Some parsed →
  PyArg_ParseTuple_iiiiiidi args' = Some parsed' →
  Engine.query_of (path_spec_of parsed) = Engine.query_of (path_spec_of parsed') →
  hyperpath_ (path_spec_of parsed) = hyperpath_ (path_spec_of parsed') →
  Engine.supply_ pf = Engine.supply_ pf' →
  Engine.bump_wait_ pf = Engine.bump_wait_ pf' →
  python_view (find_path heap args pf).1
  = python_view (find_path heap' args' pf').1.
Proof.
  intros Hargs Hargs' Hq Hh Hs Hb.
  rewrite (find_path_view heap args parsed pf Hargs).
  rewrite (find_path_view heap' args' parsed' pf' Hargs').
  destruct (designed_answer (path_spec_of parsed) pf) as [-> ->].
  destruct (designed_answer (path_spec_of parsed') pf') as [-> ->].
  by rewrite (search_path_ext _ _ pf pf' Hq Hh Hs Hb).
Qed.

(** A query only reads the network and the overlay. *)
Lemma find_path_frame heap args (pf : Engine.PathFinder) :
  Engine.supply_ (find_path heap args pf).2 = Engine.supply_ pf ∧
  Engine.bump_wait_ (find_path heap args pf).2 = Engine.bump_wait_ pf ∧
  Engine.output_dir_ (find_path heap args pf).2 = Engine.output_dir_ pf ∧
  Engine.process_num_ (find_path heap args pf).2 = Engine.process_num_ pf.
Proof.
  destruct (PyArg_ParseTuple_iiiiiidi args) as [parsed|] eqn:Hargs.
  - rewrite (find_path_run heap args parsed pf Hargs). simpl.
    unfold pathfinder_after. simpl. by destruct (trace_ _).
  - unfold _fasttrips_find_path. by rewrite Hargs.
Qed.

(** C6. Deterministic mode is pure: two [find_path] calls with the same
    PathSpecification, its hyperpath flag false, on workers with the
    same NetworkSupply and the same CapacityOverlay, return identical
    output arrays (same shapes, same rows), whatever else differs: the
    rest of the worker's state or the memory the arrays are allocated
    in. *)
Theorem find_path_deterministic_mode_is_pure
    heap heap' args args' parsed (pf pf' : Engine.PathFinder) :
  PyArg_ParseTuple_iiiiiidi args = Some parsed →
  PyArg_ParseTuple_iiiiiidi args' = Some parsed →
  hyperpath_ (path_spec_of parsed) = false →
  Engine.supply_ pf = Engine.supply_ pf' →
  Engine.bump_wait_ pf = Engine.bump_wait_ pf' →
  python_view (find_path heap args pf).1
  = python_view (find_path heap' args' pf').1.
Proof.
  intros Hargs Hargs' Hmode Hs Hb.
  by apply (find_path_view_ext heap heap' args args' parsed parsed).
Qed.

(** C7. The trace flag is noninterfering: two [find_path] calls whose
    arguments differ only in the trace flag, on the same worker, return
    identical integer and numeric arrays, and leave the same network
    and overlay behind; tracing shows in the emitted trace files only. *)
Theorem find_path_trace_flag_is_noninterfering
    heap heap' args args' (pf : Engine.PathFinder)
    passenger_id path_id hyperpath_i origin_taz_id destination_taz_id
    outbound_i preferred_time trace_i trace_i' :
  PyArg_ParseTuple_iiiiiidi args
    = Some (passenger_id, path_id, hyperpath_i, origin_taz_id,
            destination_taz_id, outbound_i, preferred_time, trace_i) →
  PyArg_ParseTuple_iiiiiidi args'
    = Some (passenger_id, path_id, hyperpath_i, origin_taz_id,
            destination_taz_id, outbound_i, preferred_time, trace_i') →
  python_view (find_path heap args pf).1
  = python_view (find_path heap' args' pf).1 ∧
  Engine.supply_ (find_path heap args pf).2
  = Engine.supply_ (find_path heap' args' pf).2 ∧
  Engine.bump_wait_ (find_path heap args pf).2
  = Engine.bump_wait_ (find_path heap' args' pf).2.
Proof.
  intros Hargs Hargs'. split.
  - by apply (find_path_view_ext heap heap' args args' _ _ pf pf Hargs Hargs').
  - destruct (find_path_frame heap args pf) as (-> & -> & _).
    by destruct (find_path_frame heap' args' pf) as (-> & -> & _).
Qed.

(** C8. Every [find_path] call is self-contained: the engine is handed
    empty containers and the call returns what is marshalled from them;
    the call leaves the worker's NetworkSupply and CapacityOverlay (and
    its output directory and worker identifier) unchanged; and no state
    of the query leaks into another one: any later query returns what it
    would have returned had this call not taken place. *)
Theorem find_path_is_self_contained heap args (pf : Engine.PathFinder) :
  (∀ parsed,
     PyArg_ParseTuple_iiiiiidi args = Some parsed →
     find_path heap args pf
     = (let '(path_states, path_stops, pf') :=
          findPath (PathFinderClass := the_engine) (path_spec_of parsed) ∅ [] pf in
        let '(_, ret_int, ret_double) :=
          marshal_path (engine := the_engine) heap path_states path_stops in
        (Value (Py_Tuple_OO ret_int ret_double), pf'))) ∧
  Engine.supply_ (find_path heap args pf).2 = Engine.supply_ pf ∧
  Engine.bump_wait_ (find_path heap args pf).2 = Engine.bump_wait_ pf ∧
  Engine.output_dir_ (find_path heap args pf).2 = Engine.output_dir_ pf ∧
  Engine.process_num_ (find_path heap args pf).2 = Engine.process_num_ pf ∧
  ∀ heap' args',
    python_view (find_path heap' args' (find_path heap args pf).2).1
    = python_view (find_path heap' args' pf).1.
Proof.
  destruct (find_path_frame heap args pf) as (Hs & Hb & Hd & Hn).
  split_and!; [|done..|].
  - intros parsed Hargs. unfold _fasttrips_find_path. rewrite Hargs.
    by destruct parsed as [[[[[[[a b] c] d] e] f] x] g].
  - intros heap' args'.
    destruct (PyArg_ParseTuple_iiiiiidi args') as [parsed'|] eqn:Hargs'.
    + by apply (find_path_view_ext heap' heap' args' args' parsed' parsed').
    + unfold _fasttrips_find_path. by rewrite Hargs'.
Qed.

End Designed_engine.

(* ===================================================================== *)
(** * The properties on concrete calls *)
(* ===================================================================== *)

Section Concrete_calls.
Import Sample.

Local Abbreviation initialize_supply :=
  (_fasttrips_initialize_supply (build := debug_build) (rt := runtime)
     (engine := engine)).
Local Abbreviation initialize_supply_NDEBUG :=
  (_fasttrips_initialize_supply (build := release_build) (rt := runtime)
     (engine := engine)).
Local Abbreviation set_bump_wait :=
  (_fasttrips_set_bump_wait (build := debug_build) (rt := runtime)
     (engine := engine)).
Local Abbreviation set_bump_wait_NDEBUG :=
  (_fasttrips_set_bump_wait (build := release_build) (rt := runtime)
     (engine := engine)).
Local Abbreviation find_path :=
  (_fasttrips_find_path (rt := runtime) (engine := engine)).

(** The sample network is accepted, and a query between its two zones
    goes through stop 10. *)
Example initialize_supply_sample :
  (initialize_supply supply_args pathfinder0).1 = Value Py_None ∧
  Engine.access_links (Engine.supply_ pathfinder1)
  = [(1, 10, (5, 1, 1)%float); (2, 10, (3, 1, 1)%float)].
Proof. by vm_compute. Qed.

Example find_path_sample :
  python_view (find_path heap0 (query_args 0 1 0) pathfinder1).1
  = Value (Some ([1; 5], [[10; -100; 1; -1; -1]],
                 ([1; 5], [[1; 90; 2; 3; 90]]%float))).
Proof. by vm_compute. Qed.

(** No access link reaches zone 9: the result is the empty pair. *)
Example find_path_unreachable :
  python_view (find_path heap0 unreachable_args pathfinder1).1
  = Value (Some ([0; 5], [], ([0; 5], []))).
Proof. by vm_compute. Qed.

(** C2. [initialize_supply] installs tables whose row counts differ.
    With the assertions live, an access index of 2^32 + 2 rows beside an
    access cost table of 2 rows passes the comparison of the two counts,
    both narrowed to [int], and the call returns None and installs the
    network of the first two rows. With the assertions compiled out
    (NDEBUG), an access index of 2 rows beside a cost table of 3 rows is
    installed as well, and so is the long index. *)
Lemma initialize_supply_accepts_unequal_row_counts :
  (PyArg_ParseTuple_siOOOOOO (PyRuntime := runtime) unequal_supply_args
   = Some ("out"%string, 3,
           PyNdarray_v NPY_INT32 long_index, PyNdarray_v NPY_DOUBLE short_cost,
           int32_array [2; 3] [5; 1; 10; 5; 2; 20],
           double_array [2; 2] [100; 100; 120; 120]%float,
           int32_array [0; 2] [], double_array [0; 2] []) ∧
   PyArray_ContiguousFromObject (PyRuntime := runtime)
     (PyNdarray_v NPY_INT32 long_index) NPY_INT32 2 2 = Some long_index ∧
   PyArray_ContiguousFromObject (PyRuntime := runtime)
     (PyNdarray_v NPY_DOUBLE short_cost) NPY_DOUBLE 2 2 = Some short_cost ∧
   PyArray_DIMS long_index = [4294967298; 2] ∧
   PyArray_DIMS short_cost = [2; 3] ∧
   initialize_supply unequal_supply_args pathfinder0
   = (Value Py_None, pathfinder1) ∧
   initialize_supply_NDEBUG unequal_supply_args pathfinder0
   = (Value Py_None, pathfinder1)) ∧
  (PyArg_ParseTuple_siOOOOOO (PyRuntime := runtime) short_index_supply_args
   = Some ("out"%string, 3,
           int32_array [2; 2] [1; 10; 2; 10],
           double_array [3; 3] [5; 1; 1; 3; 1; 1; 4; 1; 1]%float,
           int32_array [2; 3] [5; 1; 10; 5; 2; 20],
           double_array [2; 2] [100; 100; 120; 120]%float,
           int32_array [0; 2] [], double_array [0; 2] []) ∧
   (array_rows <$> PyArray_ContiguousFromObject (PyRuntime := runtime)
                     (int32_array [2; 2] [1; 10; 2; 10]) NPY_INT32 2 2)
   = Some [[1; 10]; [2; 10]] ∧
   (array_rows <$> PyArray_ContiguousFromObject (PyRuntime := runtime)
                     (double_array [3; 3] [5; 1; 1; 3; 1; 1; 4; 1; 1]%float)
                     NPY_DOUBLE 2 2)
   = Some [[5; 1; 1]; [3; 1; 1]; [4; 1; 1]]%float ∧
   initialize_supply_NDEBUG short_index_supply_args pathfinder0
   = (Value Py_None, pathfinder1) ∧
   initialize_supply short_index_supply_args pathfinder0
   = (Abort, pathfinder0)).
Proof. by vm_compute. Qed.

(** C4. [set_bump_wait] drops a long table. Both bump tables are well
    formed and have 2^32 rows, the first one closing trip 5 at stop 10
    after time 95; with the assertions live or compiled out the call
    returns None and hands the engine the two tables with a row count of
    zero, the count of the index table narrowed to [int]; the engine of
    the design is left with an overlay without any entry. *)
Lemma set_bump_wait_drops_long_table :
  PyArg_ParseTuple_OO (PyRuntime := runtime) long_bump_args
  = Some (PyNdarray_v NPY_INT32 long_bump_index,
          PyNdarray_v NPY_DOUBLE long_bump_times) ∧
  PyArray_ContiguousFromObject (PyRuntime := runtime)
    (PyNdarray_v NPY_INT32 long_bump_index) NPY_INT32 2 2
  = Some long_bump_index ∧
  PyArray_ContiguousFromObject (PyRuntime := runtime)
    (PyNdarray_v NPY_DOUBLE long_bump_times) NPY_DOUBLE 1 1
  = Some long_bump_times ∧
  PyArray_DIMS long_bump_index = [4294967296; 3] ∧
  PyArray_DIMS long_bump_times = [4294967296] ∧
  (PyArray_DATA long_bump_index 0, PyArray_DATA long_bump_index 1,
   PyArray_DATA long_bump_index 2, PyArray_DATA long_bump_times 0)
  = (5, 1, 10, 95%float) ∧
  set_bump_wait long_bump_args pathfinder1
  = (Value Py_None,
     setBumpWait (PathFinderClass := engine)
       (PyArray_DATA long_bump_index) (PyArray_DATA long_bump_times) 0
       pathfinder1) ∧
  set_bump_wait_NDEBUG long_bump_args pathfinder1
  = set_bump_wait long_bump_args pathfinder1 ∧
  Engine.bump_wait_ (set_bump_wait long_bump_args pathfinder1).2 = ∅ ∧
  Engine.bump_wait_ (set_bump_wait long_bump_args pathfinder1).2 !! (5, 1, 10)
  = None.
Proof. by vm_compute. Qed.

(** C1 on the sample query. *)
Lemma find_path_returns_parallel_rows_witness :
  ∃ ret_int ret_double,
    (find_path heap0 (query_args 0 1 0) pathfinder1).1
    = Value (Py_Tuple_OO ret_int ret_double) ∧
    length (array_rows ret_int)
    = length (searched_stops (engine := engine)
                (path_spec_of (7, 1, 0, 1, 2, 1, 90%float, 0)) pathfinder1) ∧
    length (array_rows ret_double)
    = length (searched_stops (engine := engine)
                (path_spec_of (7, 1, 0, 1, 2, 1, 90%float, 0)) pathfinder1) ∧
    Forall (λ row, length row = 5%nat) (array_rows ret_int) ∧
    Forall (λ row, length row = 5%nat) (array_rows ret_double) ∧
    (λ row, nth 0 row 0) <$> array_rows ret_int
    = searched_stops (engine := engine)
        (path_spec_of (7, 1, 0, 1, 2, 1, 90%float, 0)) pathfinder1 ∧
    (searched_stops (engine := engine)
       (path_spec_of (7, 1, 0, 1, 2, 1, 90%float, 0)) pathfinder1 = [] →
     array_rows ret_int = [] ∧ array_rows ret_double = []).
Proof.
  apply (find_path_returns_parallel_rows (rt := runtime) (engine := engine)
           heap0 (query_args 0 1 0) (7, 1, 0, 1, 2, 1, 90%float, 0) pathfinder1).
  reflexivity.
Defined.

(** C3 on two calls. With the assertions live, the fourth table is a
    string: the run reaches its conversion, the error is returned and the
    worker is as before. With the assertions compiled out, the first table
    is three columns wide and the second is no table: the run reaches the
    conversion of the second and returns the error likewise. *)
Lemma initialize_supply_conversion_failure_is_atomic_witness :
  (reaches_failed_conversion (build := debug_build) (rt := runtime)
     (int32_array [2; 2] [1; 10; 2; 10])
     (double_array [2; 3] [5; 1; 1; 3; 1; 1]%float)
     (int32_array [2; 3] [5; 1; 10; 5; 2; 20])
     (PyStr_v "times")
     (int32_array [0; 2] [])
     (double_array [0; 2] []) ∧
   initialize_supply unconvertible_supply_args pathfinder1
   = (ReturnNULL, pathfinder1)) ∧
  (reaches_failed_conversion (build := release_build) (rt := runtime)
     (int32_array [1; 3] [1; 10; 0]) PyNone_v
     (int32_array [0; 3] []) (double_array [0; 2] [])
     (int32_array [0; 2] []) (double_array [0; 2] []) ∧
   initialize_supply_NDEBUG wide_supply_args pathfinder1
   = (ReturnNULL, pathfinder1)).
Proof.
  assert (Hdebug : reaches_failed_conversion (build := debug_build) (rt := runtime)
     (int32_array [2; 2] [1; 10; 2; 10])
     (double_array [2; 3] [5; 1; 1; 3; 1; 1]%float)
     (int32_array [2; 3] [5; 1; 10; 5; 2; 20])
     (PyStr_v "times")
     (int32_array [0; 2] [])
     (double_array [0; 2] [])) by (by vm_compute).
  assert (Hrelease : reaches_failed_conversion (build := release_build) (rt := runtime)
     (int32_array [1; 3] [1; 10; 0]) PyNone_v
     (int32_array [0; 3] []) (double_array [0; 2] [])
     (int32_array [0; 2] []) (double_array [0; 2] [])) by (by vm_compute).
  split; (split; [eassumption|]).
  - exact (proj1 (initialize_supply_conversion_failure_is_atomic
                    (build := debug_build) (rt := runtime) (engine := engine)
                    unconvertible_supply_args pathfinder1 _ _ _ _ _ _ _ _
                    eq_refl) Hdebug).
  - exact (proj1 (initialize_supply_conversion_failure_is_atomic
                    (build := release_build) (rt := runtime) (engine := engine)
                    wide_supply_args pathfinder1 _ _ _ _ _ _ _ _
                    eq_refl) Hrelease).
Defined.

(** With the assertions live, the call with the wide first table stops at
    the assertion on its width, before the conversion of the second. *)
Example initialize_supply_wide_table_aborts :
  initialize_supply wide_supply_args pathfinder0 = (Abort, pathfinder0).
Proof. by vm_compute. Qed.

Example set_bump_wait_sample :
  map_to_list (Engine.bump_wait_ (set_bump_wait bump_args pathfinder1).2)
  = [(5, 1, 10, 95%float); (5, 2, 20, 115%float)].
Proof. by vm_compute. Qed.

(** C5 on the sample query. *)
Lemma find_path_rows_carry_stop_states_witness :
  ∃ ret_int ret_double,
    (find_path heap0 (query_args 0 1 0) pathfinder1).1
    = Value (Py_Tuple_OO ret_int ret_double) ∧
    length (array_rows ret_int)
    = length (searched_stops (engine := engine)
                (path_spec_of (7, 1, 0, 1, 2, 1, 90%float, 0)) pathfinder1) ∧
    length (array_rows ret_double)
    = length (searched_stops (engine := engine)
                (path_spec_of (7, 1, 0, 1, 2, 1, 90%float, 0)) pathfinder1) ∧
    ∀ (i : nat) stop_id s,
      searched_stops (engine := engine)
        (path_spec_of (7, 1, 0, 1, 2, 1, 90%float, 0)) pathfinder1 !! i
      = Some stop_id →
      default (StopState_new (PathFinderClass := engine))
        (searched_states (engine := engine)
           (path_spec_of (7, 1, 0, 1, 2, 1, 90%float, 0)) pathfinder1
         !! stop_id) = s →
      array_rows ret_int !! i
      = Some [stop_id; deparr_mode_ s; stop_succpred_ s; seq_ s;
              seq_succpred_ s] ∧
      array_rows ret_double !! i
      = Some [label_ s; deparr_time_ s; link_time_ s; cost_ s;
              arrdep_time_ s].
Proof.
  apply (find_path_rows_carry_stop_states (rt := runtime) (engine := engine)
           heap0 (query_args 0 1 0) (7, 1, 0, 1, 2, 1, 90%float, 0) pathfinder1).
  reflexivity.
Defined.

(** C6: the same deterministic query on the worker before and after a
    traced query, with the arrays allocated in different memory. *)
Lemma find_path_deterministic_mode_is_pure_witness :
  python_view (find_path heap0 (query_args 0 1 0) pathfinder1).1
  = python_view (find_path heap1 (query_args 0 1 0) pathfinder2).1.
Proof.
  apply (find_path_deterministic_mode_is_pure (rt := runtime)
           walk_search walk_search heap0 heap1
           (query_args 0 1 0) (query_args 0 1 0)
           (7, 1, 0, 1, 2, 1, 90%float, 0) pathfinder1 pathfinder2);
    reflexivity.
Defined.

(** The traced query did leave a trace file behind. *)
Example traced_query_emits_file :
  Engine.trace_files_ pathfinder1 = [] ∧
  Engine.trace_files_ pathfinder2 = [("out"%string, 3, 7, 1)].
Proof. by vm_compute. Qed.

(** C7: the sample query without and with tracing. *)
Lemma find_path_trace_flag_is_noninterfering_witness :
  python_view (find_path heap0 (query_args 0 1 0) pathfinder1).1
  = python_view (find_path heap1 (query_args 0 1 1) pathfinder1).1 ∧
  Engine.supply_ (find_path heap0 (query_args 0 1 0) pathfinder1).2
  = Engine.supply_ (find_path heap1 (query_args 0 1 1) pathfinder1).2 ∧
  Engine.bump_wait_ (find_path heap0 (query_args 0 1 0) pathfinder1).2
  = Engine.bump_wait_ (find_path heap1 (query_args 0 1 1) pathfinder1).2.
Proof.
  apply (find_path_trace_flag_is_noninterfering (rt := runtime)
           walk_search walk_search heap0 heap1
           (query_args 0 1 0) (query_args 0 1 1) pathfinder1
           7 1 0 1 2 1 90%float 0 1);
    reflexivity.
Defined.

(** C8: a traced query on the sample worker, and any query after it. *)
Lemma find_path_is_self_contained_witness :
  (∀ parsed,
     PyArg_ParseTuple_iiiiiidi (PyRuntime := runtime) (query_args 0 1 1)
     = Some parsed →
     find_path heap0 (query_args 0 1 1) pathfinder1
     = (let '(path_states, path_stops, pf') :=
          findPath (PathFinderClass := engine) (path_spec_of parsed) ∅ []
                   pathfinder1 in
        let '(_, ret_int, ret_double) :=
          marshal_path (engine := engine) heap0 path_states path_stops in
        (Value (Py_Tuple_OO ret_int ret_double), pf'))) ∧
  Engine.supply_ pathfinder2 = Engine.supply_ pathfinder1 ∧
  Engine.bump_wait_ pathfinder2 = Engine.bump_wait_ pathfinder1 ∧
  Engine.output_dir_ pathfinder2 = Engine.output_dir_ pathfinder1 ∧
  Engine.process_num_ pathfinder2 = Engine.process_num_ pathfinder1 ∧
  ∀ heap' args',
    python_view (find_path heap' args' pathfinder2).1
    = python_view (find_path heap' args' pathfinder1).1.
Proof.
  exact (find_path_is_self_contained (rt := runtime) walk_search walk_search
           heap0 (query_args 0 1 1) pathfinder1).
Defined.


(** C10 on an engine that records no state for the stops it lists: the
    rows are read from the default record. *)
Lemma find_path_lookups_default_witness :
  ∃ ret_int ret_double,
    (_fasttrips_find_path (rt := runtime) (engine := forgetful_engine)
       heap0 (query_args 0 1 0) ()).1
    = Value (Py_Tuple_OO ret_int ret_double) ∧
    (∀ (i : nat) stop_id,
       searched_stops (engine := forgetful_engine)
         (path_spec_of (7, 1, 0, 1, 2, 1, 90%float, 0)) () !! i = Some stop_id →
       searched_states (engine := forgetful_engine)
         (path_spec_of (7, 1, 0, 1, 2, 1, 90%float, 0)) () !! stop_id = None →
       array_rows ret_int !! i
       = Some (int_row stop_id (StopState_new (PathFinderClass := forgetful_engine))) ∧
       array_rows ret_double !! i
       = Some (double_row (StopState_new (PathFinderClass := forgetful_engine)))) ∧
    (∀ (i : nat) stop_id s,
       searched_stops (engine := forgetful_engine)
         (path_spec_of (7, 1, 0, 1, 2, 1, 90%float, 0)) () !! i = Some stop_id →
       searched_states (engine := forgetful_engine)
         (path_spec_of (7, 1, 0, 1, 2, 1, 90%float, 0)) () !! stop_id = Some s →
       array_rows ret_int !! i = Some (int_row stop_id s) ∧
       array_rows ret_double !! i = Some (double_row s)).
Proof.
  apply (find_path_lookups_default (rt := runtime) (engine := forgetful_engine)
           heap0 (query_args 0 1 0) (7, 1, 0, 1, 2, 1, 90%float, 0) ()).
  reflexivity.
Defined.

Example find_path_forgetful_sample :
  python_view (_fasttrips_find_path (rt := runtime) (engine := forgetful_engine)
                 heap0 (query_args 0 1 0) ()).1
  = Value (Some ([2; 5], [[1; 0; 0; 0; 0]; [2; 0; 0; 0; 0]],
                 ([2; 5], [[0; 0; 0; 0; 0]; [0; 0; 0; 0; 0]]%float))).
Proof. by vm_compute. Qed.

End Concrete_calls.

(* ===================================================================== *)
(** * Further properties of the module *)
(* ===================================================================== *)

(** ** Row counts modulo 2^32 *)

Lemma to_int_eq_iff x y : to_int x = to_int y ↔ (x - y) `mod` 2 ^ 32 = 0.
Proof.
  unfold to_int. replace (x - y) with (x + 2 ^ 31 - (y + 2 ^ 31)) by lia.
  rewrite <- Z.cong_iff_0. lia.
Qed.

Lemma to_int_is_int z : in_int_range (to_int z).
Proof.
  unfold in_int_range, INT_MIN, INT_MAX, to_int.
  pose proof (Z.mod_pos_bound (z + 2 ^ 31) (2 ^ 32)). lia.
Qed.

Section More_table_loading.
Context {build : BuildFlags} {rt : PyRuntime}
        {PathFinder : Type} {engine : PathFinderClass PathFinder}.

(** X3. What a failure of [initialize_supply] tells: when the call returns
    NULL, the argument tuple did not parse or one of the six tables did
    not convert; when it aborts, the arguments parsed and a table that
    converted violates a dimension assertion. *)
Theorem initialize_supply_failure_causes (args : PyObject) (pathfinder : PathFinder) :
  ((_fasttrips_initialize_supply args pathfinder).1 = ReturnNULL →
   PyArg_ParseTuple_siOOOOOO args = None ∨
   ∃ output_dir proc_num input1 input2 input3 input4 input5 input6,
     PyArg_ParseTuple_siOOOOOO args
       = Some (output_dir, proc_num, input1, input2, input3, input4, input5, input6) ∧
     (PyArray_ContiguousFromObject input1 NPY_INT32 2 2 = None ∨
      PyArray_ContiguousFromObject input2 NPY_DOUBLE 2 2 = None ∨
      PyArray_ContiguousFromObject input3 NPY_INT32 2 2 = None ∨
      PyArray_ContiguousFromObject input4 NPY_DOUBLE 2 2 = None ∨
      PyArray_ContiguousFromObject input5 NPY_INT32 2 2 = None ∨
      PyArray_ContiguousFromObject input6 NPY_DOUBLE 2 2 = None)) ∧
  ((_fasttrips_initialize_supply args pathfinder).1 = Abort →
   ∃ output_dir proc_num input1 input2 input3 input4 input5 input6,
     PyArg_ParseTuple_siOOOOOO args
       = Some (output_dir, proc_num, input1, input2, input3, input4, input5, input6) ∧
     ¬ supply_assertions_hold input1 input2 input3 input4 input5 input6).
Proof.
  unfold _fasttrips_initialize_supply.
  destruct (PyArg_ParseTuple_siOOOOOO args)
    as [[[[[[[[output_dir proc_num] i1] i2] i3] i4] i5] i6]|];
    [|split; [by left|done]].
  split.
  - intros Hnull. right. exists output_dir, proc_num, i1, i2, i3, i4, i5, i6.
    split; [done|]. revert Hnull. unfold_run.
    destruct NDEBUG; simpl;
      repeat (first [ next_conversion; [|intros _; tauto]
                    | case_bool_decide; simpl; [|done] ]);
      done.
  - intros Habort. exists output_dir, proc_num, i1, i2, i3, i4, i5, i6.
    split; [done|]. revert Habort.
    unfold supply_assertions_hold, width_is, same_int_rows. unfold_run.
    destruct NDEBUG; simpl;
      repeat (first [ next_conversion; [|done]
                    | case_bool_decide; simpl;
                      [|intros _ [(?&?&?) [(?&?&?) (?&?&?)]];
                        use_assertions; congruence] ]);
      done.
Qed.

(** X4. [initialize_supply] compares row counts modulo 2^32, where it
    compares them at all. For every call whose six tables convert: in a
    build with live assertions the network is installed, with each row
    count narrowed to [int], exactly when every table has its fixed width
    and the row counts of each index/data pair differ by a multiple of
    2^32, and in every other case an assertion aborts the process with the
    engine untouched; in a build with the assertions compiled out the
    network is installed whatever the widths and the row counts. The
    counts handed to the engine are [int]s. *)
Theorem initialize_supply_compares_rows_modulo_2_32
    (args : PyObject) (pathfinder : PathFinder)
    output_dir proc_num input1 input2 input3 input4 input5 input6
    (acc_index : PyArrayObject Z) (acc_cost : PyArrayObject float)
    (stop_index : PyArrayObject Z) (stop_data : PyArrayObject float)
    (xfer_index : PyArrayObject Z) (xfer_data : PyArrayObject float) :
  PyArg_ParseTuple_siOOOOOO args
    = Some (output_dir, proc_num, input1, input2, input3, input4, input5, input6) →
  PyArray_ContiguousFromObject input1 NPY_INT32 2 2 = Some acc_index →
  PyArray_ContiguousFromObject input2 NPY_DOUBLE 2 2 = Some acc_cost →
  PyArray_ContiguousFromObject input3 NPY_INT32 2 2 = Some stop_index →
  PyArray_ContiguousFromObject input4 NPY_DOUBLE 2 2 = Some stop_data →
  PyArray_ContiguousFromObject input5 NPY_INT32 2 2 = Some xfer_index →
  PyArray_ContiguousFromObject input6 NPY_DOUBLE 2 2 = Some xfer_data →
  (NDEBUG = false →
   (dimensions_accepted acc_index acc_cost stop_index stop_data
                        xfer_index xfer_data →
    _fasttrips_initialize_supply args pathfinder
    = (Value Py_None,
       initializeSupply output_dir proc_num
         (PyArray_DATA acc_index) (PyArray_DATA acc_cost)
         (to_int (dim acc_index 0))
         (PyArray_DATA stop_index) (PyArray_DATA stop_data)
         (to_int (dim stop_index 0))
         (PyArray_DATA xfer_index) (PyArray_DATA xfer_data)
         (to_int (dim xfer_index 0))
         pathfinder)) ∧
   (¬ dimensions_accepted acc_index acc_cost stop_index stop_data
                          xfer_index xfer_data →
    _fasttrips_initialize_supply args pathfinder = (Abort, pathfinder))) ∧
  (NDEBUG = true →
   _fasttrips_initialize_supply args pathfinder
   = (Value Py_None,
      initializeSupply output_dir proc_num
        (PyArray_DATA acc_index) (PyArray_DATA acc_cost)
        (to_int (dim acc_index 0))
        (PyArray_DATA stop_index) (PyArray_DATA stop_data)
        (to_int (dim stop_index 0))
        (PyArray_DATA xfer_index) (PyArray_DATA xfer_data)
        (to_int (dim xfer_index 0))
        pathfinder)) ∧
  (in_int_range (to_int (dim acc_index 0)) ∧
   in_int_range (to_int (dim stop_index 0)) ∧
   in_int_range (to_int (dim xfer_index 0))).
Proof.
  intros Hargs H1 H2 H3 H4 H5 H6.
  unfold _fasttrips_initialize_supply. rewrite Hargs. unfold_run.
  rewrite H1, H2, H3, H4, H5, H6. simpl.
  unfold dimensions_accepted, same_rows_modulo_2_32.
  split_and!; try apply to_int_is_int.
  - intros ->. simpl. split.
    + intros [(W1 & W2 & E1) [(W3 & W4 & E2) (W5 & W6 & E3)]].
      apply to_int_eq_iff in E1, E2, E3.
      by rewrite !bool_decide_eq_true_2 by (done || by symmetry).
    + intros Hno.
      repeat (case_bool_decide; simpl; [|done]).
      destruct Hno. rewrite <- !to_int_eq_iff. by repeat split.
  - by intros ->.
Qed.

(** X5. [set_bump_wait] compares row counts modulo 2^32, where it
    compares them at all. For every call whose two tables convert: in a
    build with live assertions the overlay is handed to the engine, with
    the row count narrowed to [int], exactly when the index table is three
    columns wide and the two row counts differ by a multiple of 2^32, and
    in every other case an assertion aborts the process with the engine
    untouched; in a build with the assertions compiled out the overlay is
    handed to the engine whatever the width and the row counts. The count
    handed to the engine is an [int]. *)
Theorem set_bump_wait_compares_rows_modulo_2_32
    (args : PyObject) (pathfinder : PathFinder) input1 input2
    (bw_index : PyArrayObject Z) (bw_times : PyArrayObject float) :
  PyArg_ParseTuple_OO args = Some (input1, input2) →
  PyArray_ContiguousFromObject input1 NPY_INT32 2 2 = Some bw_index →
  PyArray_ContiguousFromObject input2 NPY_DOUBLE 1 1 = Some bw_times →
  (NDEBUG = false →
   (dim bw_index 1 = 3 ∧ same_rows_modulo_2_32 bw_times bw_index →
    _fasttrips_set_bump_wait args pathfinder
    = (Value Py_None,
       setBumpWait (PyArray_DATA bw_index) (PyArray_DATA bw_times)
                   (to_int (dim bw_index 0)) pathfinder)) ∧
   (¬ (dim bw_index 1 = 3 ∧ same_rows_modulo_2_32 bw_times bw_index) →
    _fasttrips_set_bump_wait args pathfinder = (Abort, pathfinder))) ∧
  (NDEBUG = true →
   _fasttrips_set_bump_wait args pathfinder
   = (Value Py_None,
      setBumpWait (PyArray_DATA bw_index) (PyArray_DATA bw_times)
                  (to_int (dim bw_index 0)) pathfinder)) ∧
  in_int_range (to_int (dim bw_index 0)).
Proof.
  intros Hargs H1 H2.
  unfold _fasttrips_set_bump_wait. rewrite Hargs. unfold_run.
  rewrite H1, H2. simpl. unfold same_rows_modulo_2_32.
  split_and!; [| |apply to_int_is_int].
  - intros ->. simpl. split.
    + intros [W E]. apply to_int_eq_iff in E.
      by rewrite !bool_decide_eq_true_2 by (done || by symmetry).
    + intros Hno.
      repeat (case_bool_decide; simpl; [|done]).
      destruct Hno. rewrite <- to_int_eq_iff. by split.
  - by intros ->.
Qed.

End More_table_loading.

(** ** Failures and the rows of [find_path] *)

Section More_find_path.
Context {rt : PyRuntime} {PathFinder : Type} {engine : PathFinderClass PathFinder}.

(** A call of [find_path] ends in one of two ways. *)
Lemma find_path_outcome heap args (pathfinder : PathFinder) :
  (PyArg_ParseTuple_iiiiiidi args = None ∧
   _fasttrips_find_path heap args pathfinder = (ReturnNULL, pathfinder)) ∨
  (∃ parsed ret,
     PyArg_ParseTuple_iiiiiidi args = Some parsed ∧
     _fasttrips_find_path heap args pathfinder
     = (Value ret, pathfinder_after (path_spec_of parsed) pathfinder)).
Proof.
  destruct (PyArg_ParseTuple_iiiiiidi args) as [parsed|] eqn:Hargs.
  - right. eexists parsed, _. split; [done|].
    apply (find_path_run heap args parsed pathfinder Hargs).
  - left. split; [done|]. unfold _fasttrips_find_path. by rewrite Hargs.
Qed.

(** X6. [find_path] fails only on its arguments: it returns NULL exactly
    when the argument tuple does not parse, and then the engine is not
    consulted and stays as it was; it never aborts, whatever the engine
    answers. *)
Theorem find_path_fails_only_on_bad_arguments
    heap args (pathfinder : PathFinder) :
  ((_fasttrips_find_path heap args pathfinder).1 = ReturnNULL ↔
   PyArg_ParseTuple_iiiiiidi args = None) ∧
  (PyArg_ParseTuple_iiiiiidi args = None →
   (_fasttrips_find_path heap args pathfinder).2 = pathfinder) ∧
  (_fasttrips_find_path heap args pathfinder).1 ≠ Abort.
Proof.
  destruct (find_path_outcome heap args pathfinder)
    as [[Hargs ->]|(parsed & ret & Hargs & ->)]; simpl.
  - by split_and!.
  - rewrite Hargs. by split_and!.
Qed.

(** X7. The rows of a stop depend on its id only: when the path lists the
    same stop id at two positions, the two integer rows are equal and the
    two numeric rows are equal, since both are read from the one map entry
    of that id. *)
Theorem find_path_repeated_stop_same_rows
    heap args parsed (pathfinder : PathFinder) :
  PyArg_ParseTuple_iiiiiidi args = Some parsed →
  ∃ ret_int ret_double,
    (_fasttrips_find_path heap args pathfinder).1
    = Value (Py_Tuple_OO ret_int ret_double) ∧
    ∀ (i j : nat) stop_id,
      searched_stops (path_spec_of parsed) pathfinder !! i = Some stop_id →
      searched_stops (path_spec_of parsed) pathfinder !! j = Some stop_id →
      array_rows ret_int !! i = array_rows ret_int !! j ∧
      array_rows ret_double !! i = array_rows ret_double !! j.
Proof.
  intros Hargs.
  destruct (find_path_arrays heap args parsed pathfinder Hargs)
    as (ri & rd & Hrun & Hri & Hrd).
  exists ri, rd. rewrite Hrun, Hri, Hrd. split; [done|].
  intros i j stop_id Hi Hj. by rewrite !list_lookup_fmap, Hi, Hj.
Qed.

(** X8. The output reads the map only under the ids of the stop list: two
    calls after which the engine has left the same stop list, and maps
    that agree on the ids in that list, show Python the same result,
    whatever else the two maps hold and whatever the queries were. *)
Theorem find_path_reads_listed_entries_only
    heap heap' args args' parsed parsed' (pathfinder pathfinder' : PathFinder) :
  PyArg_ParseTuple_iiiiiidi args = Some parsed →
  PyArg_ParseTuple_iiiiiidi args' = Some parsed' →
  searched_stops (path_spec_of parsed) pathfinder
  = searched_stops (path_spec_of parsed') pathfinder' →
  (∀ stop_id,
     stop_id ∈ searched_stops (path_spec_of parsed) pathfinder →
     searched_states (path_spec_of parsed) pathfinder !! stop_id
     = searched_states (path_spec_of parsed') pathfinder' !! stop_id) →
  python_view (_fasttrips_find_path heap args pathfinder).1
  = python_view (_fasttrips_find_path heap' args' pathfinder').1.
Proof.
  intros Hargs Hargs' Hstops Hstates.
  rewrite (find_path_view heap args parsed pathfinder Hargs).
  rewrite (find_path_view heap' args' parsed' pathfinder' Hargs').
  simpl. rewrite <- Hstops. do 3 f_equal.
  - f_equal. apply list_fmap_ext. intros i stop_id Hi.
    by rewrite !map_subscript_fst,
         (Hstates stop_id (list_elem_of_lookup_2 _ _ _ Hi)).
  - f_equal. apply list_fmap_ext. intros i stop_id Hi.
    by rewrite !map_subscript_fst,
         (Hstates stop_id (list_elem_of_lookup_2 _ _ _ Hi)).
Qed.

End More_find_path.

(** ** Calls through the method table *)

Section Calls_through_the_table.
Context {build : BuildFlags} {rt : PyRuntime}
        {PathFinder : Type} {engine : PathFinderClass PathFinder}.

(** A method that fails leaves the engine as it was. *)
Lemma call_method_error_untouched name heap args (pathfinder : PathFinder) :
  is_error (call_method name heap args pathfinder).1 = true →
  (call_method name heap args pathfinder).2 = pathfinder.
Proof.
  unfold call_method, fasttripsMethods. simpl.
  repeat case_decide; simpl; [..|done].
  - apply initialize_supply_error_untouched.
  - apply set_bump_wait_error_untouched.
  - destruct (find_path_outcome heap args pathfinder)
      as [[_ ->]|(parsed & ret & _ & ->)]; [done|discriminate].
Qed.

(** X9. Whatever is called on the module, by whatever name, a call that
    does not return a value leaves the engine exactly as it was; and only
    the two table-loading methods can abort the process. *)
Theorem module_failures_leave_engine_untouched
    name heap args (pathfinder : PathFinder) :
  (is_error (call_method name heap args pathfinder).1 = true →
   (call_method name heap args pathfinder).2 = pathfinder) ∧
  ((call_method name heap args pathfinder).1 = Abort →
   name = "initialize_supply"%string ∨ name = "set_bump_wait"%string).
Proof.
  split; [apply call_method_error_untouched|].
  unfold call_method, fasttripsMethods. simpl.
  repeat case_decide; simpl; [by left|by right|..|done].
  by destruct (find_path_outcome heap args pathfinder)
    as [[_ ->]|(parsed & ret & _ & ->)].
Qed.

(** X10. Calls that raise can be erased from a program: running only the
    calls that did not raise a Python exception gives the same outcomes
    for these calls, in the same order, and leaves the same engine. A
    caller that catches the exceptions of the module continues on an
    engine that no failed call has touched. *)
Theorem raised_calls_can_be_erased
    (calls : list method_call) (pathfinder : PathFinder) :
  run_calls (calls_not_raising calls (run_calls calls pathfinder).1) pathfinder
  = (filter (λ o, raised o = false) (run_calls calls pathfinder).1,
     (run_calls calls pathfinder).2).
Proof.
  revert pathfinder. induction calls as [|c calls IH]; intros pathfinder; [done|].
  cbn [run_calls].
  destruct (call_method (call_name c) (call_heap c) (call_args c) pathfinder)
    as [o pathfinder'] eqn:Hcall.
  destruct o as [ret| |].
  - specialize (IH pathfinder').
    destruct (run_calls calls pathfinder') as [outcomes pathfinder''].
    unfold calls_not_raising in *. cbn [fst snd zip zip_with] in *.
    rewrite !filter_cons_True by done. cbn [fmap list_fmap fst run_calls].
    by rewrite Hcall, IH.
  - pose proof (call_method_error_untouched (call_name c) (call_heap c)
                  (call_args c) pathfinder) as Hsame.
    rewrite Hcall in Hsame. simpl in Hsame. rewrite Hsame in * by done.
    specialize (IH pathfinder).
    destruct (run_calls calls pathfinder) as [outcomes pathfinder''].
    unfold calls_not_raising in *. cbn [fst snd zip zip_with] in *.
    rewrite !filter_cons_False by (simpl; congruence).
    by rewrite IH.
  - unfold calls_not_raising. cbn [fst snd zip zip_with].
    destruct calls; cbn [zip_with];
      rewrite !filter_cons_True by done; cbn [filter fmap list_fmap fst run_calls];
      by rewrite Hcall.
Qed.

End Calls_through_the_table.

(* ===================================================================== *)
(** * The further properties on concrete calls *)
(* ===================================================================== *)

Section More_concrete_calls.
Import Sample Calls.

(** The sample program with live assertions: the network is built, the
    unknown method and the overlay from a string raise, the query is
    answered, the wide table aborts, and the last query is never made; the
    engine is left as the first call built it. *)
Example program_outcomes :
  python_view <$> (run_calls (build := debug_build) (engine := engine)
                     program pathfinder0).1
  = [Value None; ReturnNULL; ReturnNULL;
     Value (Some ([1; 5], [[10; -100; 1; -1; -1]],
                  ([1; 5], [[1; 90; 2; 3; 90]]%float)));
     Abort] ∧
  (run_calls (build := debug_build) (engine := engine) program pathfinder0).2
  = pathfinder1 ∧
  call_name <$> calls_not_raising program
                  (run_calls (build := debug_build) (engine := engine)
                     program pathfinder0).1
  = ["initialize_supply"; "find_path"; "initialize_supply"]%string.
Proof. by vm_compute. Qed.

(** The same program with the assertions compiled out: the wide table is
    not looked at, the conversion of the table after it raises, and the
    last query is answered. *)
Example program_outcomes_NDEBUG :
  python_view <$> (run_calls (build := release_build) (engine := engine)
                     program pathfinder0).1
  = [Value None; ReturnNULL; ReturnNULL;
     Value (Some ([1; 5], [[10; -100; 1; -1; -1]],
                  ([1; 5], [[1; 90; 2; 3; 90]]%float)));
     ReturnNULL;
     Value (Some ([1; 5], [[10; -100; 1; -1; -1]],
                  ([1; 5], [[1; 90; 2; 3; 90]]%float)))] ∧
  (run_calls (build := release_build) (engine := engine) program pathfinder0).2
  = pathfinder1.
Proof. by vm_compute. Qed.

(** X4 on two calls. With live assertions, the access index of 2^32 + 2
    rows beside the cost table of 2 rows: the call installs the network of
    two access links. With the assertions compiled out, the access index
    of 2 rows beside the cost table of 3 rows: the same network is
    installed. *)
Lemma initialize_supply_compares_rows_modulo_2_32_witness :
  (dimensions_accepted
     long_index short_cost
     (int32s [2; 3] [5; 1; 10; 5; 2; 20]) (doubles [2; 2] [100; 100; 120; 120]%float)
     (int32s [0; 2] []) (doubles [0; 2] []) ∧
   _fasttrips_initialize_supply (build := debug_build) (rt := runtime)
     (engine := engine) unequal_supply_args pathfinder0
   = (Value Py_None, pathfinder1)) ∧
  _fasttrips_initialize_supply (build := release_build) (rt := runtime)
    (engine := engine) short_index_supply_args pathfinder0
  = (Value Py_None, pathfinder1).
Proof.
  assert (Hc : dimensions_accepted
    long_index short_cost
    (int32s [2; 3] [5; 1; 10; 5; 2; 20]) (doubles [2; 2] [100; 100; 120; 120]%float)
    (int32s [0; 2] []) (doubles [0; 2] [])) by (by vm_compute).
  split; [split; [exact Hc|]|].
  - exact (proj1 (proj1 (initialize_supply_compares_rows_modulo_2_32
                    (build := debug_build) (rt := runtime) (engine := engine)
                    unequal_supply_args pathfinder0
                    _ _ _ _ _ _ _ _ _ _ _ _ _ _
                    eq_refl eq_refl eq_refl eq_refl eq_refl eq_refl eq_refl)
                    eq_refl) Hc).
  - exact (proj1 (proj2 (initialize_supply_compares_rows_modulo_2_32
                    (build := release_build) (rt := runtime) (engine := engine)
                    short_index_supply_args pathfinder0
                    _ _ _ _ _ _ _ _ _ _ _ _ _ _
                    eq_refl eq_refl eq_refl eq_refl eq_refl eq_refl eq_refl))
                    eq_refl).
Defined.

(** X5 on the two bump tables of 2^32 rows, with live assertions and with
    the assertions compiled out: the engine is handed a row count of
    zero. *)
Lemma set_bump_wait_compares_rows_modulo_2_32_witness :
  (dim long_bump_index 1 = 3 ∧
   same_rows_modulo_2_32 long_bump_times long_bump_index) ∧
  to_int (dim long_bump_index 0) = 0 ∧
  _fasttrips_set_bump_wait (build := debug_build) (rt := runtime)
    (engine := engine) long_bump_args pathfinder1
  = (Value Py_None,
     setBumpWait (PathFinderClass := engine)
       (PyArray_DATA long_bump_index) (PyArray_DATA long_bump_times)
       (to_int (dim long_bump_index 0)) pathfinder1) ∧
  _fasttrips_set_bump_wait (build := release_build) (rt := runtime)
    (engine := engine) long_bump_args pathfinder1
  = (Value Py_None,
     setBumpWait (PathFinderClass := engine)
       (PyArray_DATA long_bump_index) (PyArray_DATA long_bump_times)
       (to_int (dim long_bump_index 0)) pathfinder1).
Proof.
  assert (Hc : dim long_bump_index 1 = 3 ∧
               same_rows_modulo_2_32 long_bump_times long_bump_index)
    by (by vm_compute).
  split; [exact Hc|]. split; [reflexivity|]. split.
  - exact (proj1 (proj1 (set_bump_wait_compares_rows_modulo_2_32
                    (build := debug_build) (rt := runtime) (engine := engine)
                    long_bump_args pathfinder1 _ _ long_bump_index long_bump_times
                    eq_refl eq_refl eq_refl) eq_refl) Hc).
  - exact (proj1 (proj2 (set_bump_wait_compares_rows_modulo_2_32
                    (build := release_build) (rt := runtime) (engine := engine)
                    long_bump_args pathfinder1 _ _ long_bump_index long_bump_times
                    eq_refl eq_refl eq_refl)) eq_refl).
Defined.

(** X7 on a path that lists zone 4 twice. *)
Lemma find_path_repeated_stop_same_rows_witness :
  ∃ ret_int ret_double,
    (_fasttrips_find_path (rt := runtime) (engine := forgetful_engine)
       heap0 same_zone_args ()).1
    = Value (Py_Tuple_OO ret_int ret_double) ∧
    ∀ (i j : nat) stop_id,
      searched_stops (engine := forgetful_engine)
        (path_spec_of (7, 1, 0, 4, 4, 1, 90%float, 0)) () !! i = Some stop_id →
      searched_stops (engine := forgetful_engine)
        (path_spec_of (7, 1, 0, 4, 4, 1, 90%float, 0)) () !! j = Some stop_id →
      array_rows ret_int !! i = array_rows ret_int !! j ∧
      array_rows ret_double !! i = array_rows ret_double !! j.
Proof.
  apply (find_path_repeated_stop_same_rows (rt := runtime)
           (engine := forgetful_engine)
           heap0 same_zone_args (7, 1, 0, 4, 4, 1, 90%float, 0) ()).
  reflexivity.
Defined.

Example find_path_same_zone_sample :
  searched_stops (engine := forgetful_engine)
    (path_spec_of (7, 1, 0, 4, 4, 1, 90%float, 0)) () = [4; 4].
Proof. reflexivity. Qed.

(** X8 on two workers of the exploring engine, which label stop 100 and
    stop 200 besides the origin of the query. *)
Lemma find_path_reads_listed_entries_only_witness :
  python_view (_fasttrips_find_path (rt := runtime) (engine := exploring_engine)
                 heap0 (query_args 0 1 0) 100).1
  = python_view (_fasttrips_find_path (rt := runtime) (engine := exploring_engine)
                   heap1 (query_args 0 1 0) 200).1.
Proof.
  apply (find_path_reads_listed_entries_only (rt := runtime)
           (engine := exploring_engine) heap0 heap1
           (query_args 0 1 0) (query_args 0 1 0)
           (7, 1, 0, 1, 2, 1, 90%float, 0) (7, 1, 0, 1, 2, 1, 90%float, 0)
           100 200); [reflexivity..|].
  intros stop_id Hin. apply list_elem_of_singleton in Hin. subst stop_id.
  reflexivity.
Defined.

Example exploring_engine_maps_differ :
  searched_states (engine := exploring_engine)
    (path_spec_of (7, 1, 0, 1, 2, 1, 90%float, 0)) 100 !! 100
  ≠ searched_states (engine := exploring_engine)
      (path_spec_of (7, 1, 0, 1, 2, 1, 90%float, 0)) 200 !! 100.
Proof. by vm_compute. Qed.

End More_concrete_calls.
